(** * terraform-provider-vtex: the resilient VTEX client and the user-role resource

    A shallow embedding of [internal/client/client.go] (token cache, retry
    loop with adaptive backoff), of the resource of
    [internal/provider/vtex_user_role_resource.go] and of the provider's
    configuration in [internal/provider/provider.go], with the properties
    stated about them. *)

From Stdlib Require Import ZArith List Bool String Ascii Lia DecimalString
  Sorted.
From Stdlib Require Import Floats.SpecFloat.
Import ListNotations.
Open Scope Z_scope.

(** ** Machine integers and [time.Duration] *)

Module Int64.
Definition modulus : Z := 2 ^ 64.
Definition min_int : Z := - 2 ^ 63.
Definition max_int : Z := 2 ^ 63 - 1.

(** Two's-complement wrap-around of a mathematical integer to [int64]. *)
Definition wrap (x : Z) : Z := (x + 2 ^ 63) mod modulus - 2 ^ 63.

Definition in_range (x : Z) : bool := (min_int <=? x) && (x <=? max_int).

Definition sub (x y : Z) : Z := wrap (x - y).
Definition mul (x y : Z) : Z := wrap (x * y).
End Int64.

(** IEEE 754 binary64, as Go's [float64]: the operations are the ones of
    [SpecFloat] at precision 53 and maximal exponent 1024. *)
Module Float64.
Definition prec : Z := 53.
Definition emax : Z := 1024.

(** [float64(x)] for an integer [x]: round to nearest, ties to even. *)
Definition of_int (x : Z) : spec_float := binary_normalize prec emax x 0 false.

Definition mul (x y : spec_float) : spec_float := SFmul prec emax x y.

(** [int64(f)]: the fractional part is discarded (truncation towards
    zero).  Outside the range of [int64], and for infinities and NaN, Go
    leaves the result to the implementation; amd64 yields the smallest
    [int64], which is what is written here. *)
Definition to_int64 (f : spec_float) : Z :=
  match f with
  | S754_zero _ => 0
  | S754_finite s m e =>
      let a := match e with
               | Z0 => Zpos m
               | Zpos p => Zpos m * 2 ^ Zpos p
               | Zneg p => Zpos m / 2 ^ Zpos p
               end in
      let v := if s then - a else a in
      if Int64.in_range v then v else Int64.min_int
  | _ => Int64.min_int
  end.

(** The untyped constants [1.5] and [1.1] converted to [float64]. *)
Definition c1_5 : spec_float := S754_finite false 6755399441055744 (-52).
Definition c1_1 : spec_float := S754_finite false 4953959590107546 (-52).
End Float64.

(** [time.Duration] is an [int64] count of nanoseconds. *)
Definition Duration := Z.
Definition Nanosecond : Duration := 1.
Definition Millisecond : Duration := 1000000.
Definition Second : Duration := 1000000000.

(** ** Retry settings ([client.go], lines 15-21) *)

Definition maxRetries : nat := 20.
Definition baseWait : Duration := 100 * Millisecond.
Definition maxWait : Duration := 5 * Second.
Definition minWait : Duration := 50 * Millisecond.
Definition adjustFactor : spec_float := Float64.c1_5.

(** [time.Duration(float64(d) * f)] *)
Definition scale (d : Duration) (f : spec_float) : Duration :=
  Float64.to_int64 (Float64.mul (Float64.of_int d) f).

(** ** Data model of the client ([client.go], lines 23-55) *)

(** [time.Time]: an instant, in nanoseconds since the Unix epoch.
    [t.Add(d)] is [t + d] and [t.Before(u)] is [t < u]. *)
Definition Time := Z.
Definition zeroTime : Time := -62135596800 * Second.

Record VtexClient := mkVtexClient {
  vtexBaseURL : string;
  oktaURL : string;
  oktaClientID : string;
  oktaSecret : string;
  oktaGrantType : string;
  oktaScope : string;
  token : string;
  tokenExpiry : Time
}.

Record UserRole := mkUserRole {
  Email : string;
  Name : string;
  Account : string;
  RoleName : string
}.

Record UserRoleRequest := mkUserRoleRequest { Users : list UserRole }.

Record OktaTokenResponse := mkOktaTokenResponse {
  AccessToken : string;
  TokenType : string;
  ExpiresIn : Z
}.

(** [NewVtexClient]: no token is cached and the expiry is the zero time. *)
Definition NewVtexClient
    (vtexBaseURL oktaURL oktaClientID oktaSecret oktaGrantType oktaScope : string)
    : VtexClient :=
  mkVtexClient vtexBaseURL oktaURL oktaClientID oktaSecret oktaGrantType
               oktaScope "" zeroTime.

(** ** The outside world *)

(** What [http.Client.Do] gives back: a transport error, or a response
    with its status code and its body read to the end. *)
Inductive HttpResult :=
| HttpError (cause : string)
| HttpResponse (StatusCode : Z) (body : string).

(** A request handed to the VTEX endpoint. *)
Record Request := mkRequest {
  req_method : string;
  req_url : string;
  req_authorization : string;
  req_body : string
}.

(** Effects the client performs, in the order they happen. *)
Inductive Event :=
| EvTokenRequest (url clientID secret form : string)
| EvRequest (r : Request)
| EvSleep (d : Duration).

(** The environment a run is played against.  [clock k] is the value of
    the [k]-th call of [time.Now()], [oktaDo k] and [vtexDo k] are the
    outcomes of the [k]-th request sent to the token endpoint and to the
    VTEX endpoint; the other fields stand for the library calls that can
    fail ([inl] carries the library's error text). *)
Record Env := mkEnv {
  clock : nat -> Time;
  oktaDo : nat -> HttpResult;
  vtexDo : nat -> HttpResult;
  newRequest : string -> string -> option string;
  jsonMarshal : UserRoleRequest -> string + string;
  jsonDecodeToken : string -> string + OktaTokenResponse;
  formEncode : string -> string -> string
}.

(** The mutable part: how many clock readings and requests were consumed,
    and the log of effects. *)
Record World := mkWorld {
  ticks : nat;
  oktaCalls : nat;
  vtexCalls : nat;
  trace : list Event
}.

Definition world0 : World := mkWorld 0 0 0 [].

(** ** Errors *)

Inductive TokenError :=
| ErrCreatingTokenRequest (cause : string)
| ErrRequestingToken (cause : string)
| ErrObtainingToken (status : Z) (body : string)
| ErrDecodingToken (cause : string).

Inductive RequestError :=
| ErrGettingToken (e : TokenError)
| ErrMarshaling (cause : string)
| ErrCreatingRequest (cause : string)
| ErrRefreshingToken (e : TokenError)
| ErrRequestFailed (status : Z) (body : string)
| ErrMaxRetries.

Definition itoa (z : Z) : string :=
  DecimalString.NilZero.string_of_int (Z.to_int z).

(** The texts built by [fmt.Errorf] in [client.go]. *)
Definition TokenError_Error (e : TokenError) : string :=
  match e with
  | ErrCreatingTokenRequest c => "error creating token request: " ++ c
  | ErrRequestingToken c => "error requesting token: " ++ c
  | ErrObtainingToken st b =>
      "error obtaining token: status " ++ itoa st ++ ", body: " ++ b
  | ErrDecodingToken c => "error decoding token response: " ++ c
  end%string.

Definition RequestError_Error (e : RequestError) : string :=
  match e with
  | ErrGettingToken t => "error getting token: " ++ TokenError_Error t
  | ErrMarshaling c => "error marshaling request: " ++ c
  | ErrCreatingRequest c => "error creating request: " ++ c
  | ErrRefreshingToken t => "error refreshing token: " ++ TokenError_Error t
  | ErrRequestFailed st b =>
      "request failed: status " ++ itoa st ++ ", body: " ++ b
  | ErrMaxRetries =>
      "max retries (" ++ itoa (Z.of_nat maxRetries) ++ ") exceeded"
  end%string.

(** ** A state monad over the client and the world *)

Definition St : Type := VtexClient * World.
Definition M (A : Type) : Type := St -> A * St.

Definition ret {A} (a : A) : M A := fun s => (a, s).
Definition bind {A B} (m : M A) (k : A -> M B) : M B :=
  fun s => let (a, s') := m s in k a s'.

Declare Scope m_scope.
Delimit Scope m_scope with M.
Notation "x <- m ;; k" := (bind m (fun x => k))
  (at level 100, m at next level, right associativity) : m_scope.
Notation "m ;;; k" := (bind m (fun _ => k))
  (at level 100, right associativity) : m_scope.

Definition getClient : M VtexClient := fun s => (fst s, s).
Definition getWorld : M World := fun s => (snd s, s).
Definition putClient (c : VtexClient) : M unit := fun s => (tt, (c, snd s)).
Definition putWorld (w : World) : M unit := fun s => (tt, (fst s, w)).

Definition set_token (c : VtexClient) (t : string) : VtexClient :=
  mkVtexClient (vtexBaseURL c) (oktaURL c) (oktaClientID c) (oktaSecret c)
               (oktaGrantType c) (oktaScope c) t (tokenExpiry c).
Definition set_tokenExpiry (c : VtexClient) (e : Time) : VtexClient :=
  mkVtexClient (vtexBaseURL c) (oktaURL c) (oktaClientID c) (oktaSecret c)
               (oktaGrantType c) (oktaScope c) (token c) e.

Definition log (w : World) (e : Event) : World :=
  mkWorld (ticks w) (oktaCalls w) (vtexCalls w) (trace w ++ [e]).

Inductive result (E A : Type) :=
| Ok (a : A)
| Err (e : E).
Arguments Ok {E A} a.
Arguments Err {E A} e.

(** Per-invocation retry state: the two locals of [doRequestWithRetry]. *)
Record RetryState := mkRetryState {
  currentWait : Duration;
  currentMaxWait : Duration
}.

(** What one pass through the loop body does to the loop: [return err]
    ([Return None] is [return nil]) or [continue] with new locals. *)
Inductive Next :=
| Return (err : option RequestError)
| Continue (rs : RetryState).

(** The three ways the loop body reaches [continue] after a request. *)
Definition backoff (rs : RetryState) : RetryState :=
  mkRetryState
    (Z.min (scale (currentWait rs) adjustFactor) (currentMaxWait rs))
    (currentMaxWait rs).

Definition backoff_widen (rs : RetryState) : RetryState :=
  mkRetryState
    (Z.min (scale (currentWait rs) adjustFactor) (currentMaxWait rs))
    (Z.min (scale (currentMaxWait rs) Float64.c1_1) (15 * Second)).

Section Client.
Variable env : Env.
Local Open Scope m_scope.

(** [time.Now()] *)
Definition timeNow : M Time := fun s =>
  let w := snd s in
  (clock env (ticks w),
   (fst s, mkWorld (S (ticks w)) (oktaCalls w) (vtexCalls w) (trace w))).

(** [time.Sleep(d)] *)
Definition timeSleep (d : Duration) : M unit := fun s =>
  (tt, (fst s, log (snd s) (EvSleep d))).

(** [c.httpClient.Do(req)] on the token endpoint *)
Definition doTokenRequest (url clientID secret form : string)
    : M HttpResult := fun s =>
  let w := snd s in
  (oktaDo env (oktaCalls w),
   (fst s, mkWorld (ticks w) (S (oktaCalls w)) (vtexCalls w)
                   (trace w ++ [EvTokenRequest url clientID secret form]))).

(** [c.httpClient.Do(req)] on the VTEX endpoint *)
Definition doRequest (r : Request) : M HttpResult := fun s =>
  let w := snd s in
  (vtexDo env (vtexCalls w),
   (fst s, mkWorld (ticks w) (oktaCalls w) (S (vtexCalls w))
                   (trace w ++ [EvRequest r]))).

(** [c.token != "" && time.Now().Before(c.tokenExpiry)]: the clock is
    read only when a token is cached. *)
Definition tokenUsable : M bool :=
  c <- getClient ;;
  if String.eqb (token c) "" then ret false
  else now <- timeNow ;; ret (now <? tokenExpiry c).

(** [getToken] ([client.go], lines 73-125), as one goroutine runs it: the
    two tests are the one under the read lock and the one repeated under
    the write lock.  [ExpiresIn] is an [int], 64 bits wide on the
    platforms the provider is built for, so the subtraction and the
    product with [time.Second] are those of [int64]. *)
Definition getToken : M (result TokenError string) :=
  fast <- tokenUsable ;;
  if fast then c <- getClient ;; ret (Ok (token c))
  else
    again <- tokenUsable ;;
    if again then c <- getClient ;; ret (Ok (token c))
    else
      c <- getClient ;;
      let data := formEncode env (oktaGrantType c) (oktaScope c) in
      match newRequest env "POST" (oktaURL c) with
      | Some cause => ret (Err (ErrCreatingTokenRequest cause))
      | None =>
          resp <- doTokenRequest (oktaURL c) (oktaClientID c)
                                 (oktaSecret c) data ;;
          match resp with
          | HttpError cause => ret (Err (ErrRequestingToken cause))
          | HttpResponse status body =>
              if negb (status =? 200)
              then ret (Err (ErrObtainingToken status body))
              else
                match jsonDecodeToken env body with
                | inl cause => ret (Err (ErrDecodingToken cause))
                | inr tokenResp =>
                    putClient (set_token c (AccessToken tokenResp)) ;;;
                    now <- timeNow ;;
                    c1 <- getClient ;;
                    putClient
                      (set_tokenExpiry c1
                         (now + Int64.mul
                                  (Int64.sub (ExpiresIn tokenResp) 300)
                                  Second)) ;;;
                    c2 <- getClient ;;
                    ret (Ok (token c2))
                end
          end
      end.

(** [refreshToken] ([client.go], lines 128-134) *)
Definition refreshToken : M (result TokenError string) :=
  c <- getClient ;;
  putClient (set_tokenExpiry (set_token c "") zeroTime) ;;;
  getToken.

(** The body of the loop of [doRequestWithRetry] (lines 142-203). *)
Definition attempt (method endpoint : string) (payload : UserRoleRequest)
    (rs : RetryState) : M Next :=
  tok <- getToken ;;
  match tok with
  | Err e => ret (Return (Some (ErrGettingToken e)))
  | Ok token =>
      match jsonMarshal env payload with
      | inl cause => ret (Return (Some (ErrMarshaling cause)))
      | inr jsonData =>
          c <- getClient ;;
          let reqURL := (vtexBaseURL c ++ endpoint)%string in
          match newRequest env method reqURL with
          | Some cause => ret (Return (Some (ErrCreatingRequest cause)))
          | None =>
              resp <- doRequest (mkRequest method reqURL
                                   ("Bearer " ++ token)%string jsonData) ;;
              match resp with
              | HttpError _ =>
                  timeSleep (currentWait rs) ;;;
                  ret (Continue (backoff rs))
              | HttpResponse status body =>
                  if (200 <=? status) && (status <? 300)
                  then ret (Return None)
                  else if (status =? 401) || (status =? 403)
                  then
                    r <- refreshToken ;;
                    match r with
                    | Err e => ret (Return (Some (ErrRefreshingToken e)))
                    | Ok _ => ret (Continue rs)
                    end
                  else if (status =? 404) || (status =? 504)
                          || (status =? 429)
                  then
                    timeSleep (currentWait rs) ;;;
                    ret (Continue (backoff_widen rs))
                  else if status >=? 500
                  then
                    timeSleep (currentWait rs) ;;;
                    ret (Continue (backoff rs))
                  else ret (Return (Some (ErrRequestFailed status body)))
              end
          end
      end
  end.

(** [for attempt := 0; attempt < maxRetries; attempt++ { ... }] followed
    by the final [return]; [n] is the number of passes still allowed. *)
Fixpoint retryLoop (n : nat) (method endpoint : string)
    (payload : UserRoleRequest) (rs : RetryState)
    : M (option RequestError) :=
  match n with
  | O => ret (Some ErrMaxRetries)
  | S n' =>
      nx <- attempt method endpoint payload rs ;;
      match nx with
      | Return err => ret err
      | Continue rs' => retryLoop n' method endpoint payload rs'
      end
  end.

(** [doRequestWithRetry] ([client.go], lines 137-207) *)
Definition doRequestWithRetry (method endpoint : string)
    (payload : UserRoleRequest) : M (option RequestError) :=
  retryLoop maxRetries method endpoint payload
            (mkRetryState baseWait maxWait).

(** [CreateUserRole] and [DeleteUserRole] ([client.go], lines 210-223) *)
Definition CreateUserRole (user : UserRole) : M (option RequestError) :=
  doRequestWithRetry "POST" "/_v/create-user-role"
                     (mkUserRoleRequest [user]).

Definition DeleteUserRole (user : UserRole) : M (option RequestError) :=
  doRequestWithRetry "POST" "/_v/remove-user-role"
                     (mkUserRoleRequest [user]).

(** [ReadUserRole] ([client.go], lines 228-231): always [nil, nil]. *)
Definition ReadUserRole (email account roleName : string)
    : M (option UserRole * option RequestError) :=
  ret (None, None).
End Client.

(** ** Go's [strings] functions used by the resource

    Both call sites split on a one-byte separator, for which
    [strings.Index] is [strings.IndexByte]; the separator is therefore an
    [ascii] here. *)
Module strings.
Fixpoint IndexByte (s : string) (c : ascii) : option nat :=
  match s with
  | EmptyString => None
  | String a s' =>
      if Ascii.eqb a c then Some O else option_map S (IndexByte s' c)
  end.

Fixpoint Count (s : string) (c : ascii) : nat :=
  match s with
  | EmptyString => O
  | String a s' => if Ascii.eqb a c then S (Count s' c) else Count s' c
  end.

(** [s[:m]] and [s[m:]] *)
Fixpoint take (m : nat) (s : string) : string :=
  match m, s with
  | S m', String a s' => String a (take m' s')
  | _, _ => EmptyString
  end.

Fixpoint drop (m : nat) (s : string) : string :=
  match m, s with
  | S m', String _ s' => drop m' s'
  | _, _ => s
  end.

(** The loop of [genSplit]: at most [n] cuts, then the rest of [s]. *)
Fixpoint splitLoop (n : nat) (s : string) (sep : ascii) : list string :=
  match n with
  | O => [s]
  | S n' =>
      match IndexByte s sep with
      | None => [s]
      | Some m => take m s :: splitLoop n' (drop (m + 1) s) sep
      end
  end.

(** [strings.SplitN(s, sep, n)]: [n = 0] gives no substring, [n < 0]
    all of them, [n > 0] at most [n], the last one being the unsplit
    remainder. *)
Definition SplitN (s : string) (sep : ascii) (n : Z) : list string :=
  if n =? 0 then []
  else
    let n1 := if n <? 0 then S (Count s sep) else Z.to_nat n in
    let n2 := Nat.min n1 (S (String.length s)) in
    splitLoop (Nat.pred n2) s sep.

Definition Split (s : string) (sep : ascii) : list string :=
  SplitN s sep (-1).
End strings.

(** ** The user-role resource ([vtex_user_role_resource.go]) *)
Module provider.

(** [types.String] of the plugin framework. *)
Inductive types_String :=
| StringNull
| StringUnknown
| StringValue (s : string).

Definition ValueString (v : types_String) : string :=
  match v with
  | StringValue s => s
  | _ => ""%string
  end.

Record VtexUserRoleResourceModel := mkModel {
  ID : types_String;
  Email : types_String;
  Name : types_String;
  Account : types_String;
  RoleName : types_String
}.

Inductive Severity := SeverityError | SeverityWarning.

Record Diagnostic := mkDiagnostic {
  severity : Severity;
  Summary : string;
  Detail : string
}.

Definition Diagnostics := list Diagnostic.

Definition HasError (ds : Diagnostics) : bool :=
  existsb (fun d => match severity d with
                    | SeverityError => true
                    | SeverityWarning => false
                    end) ds.

Definition AddError (ds : Diagnostics) (summary detail : string)
    : Diagnostics :=
  ds ++ [mkDiagnostic SeverityError summary detail].

(** [req.Plan.Get(ctx, &data)]: the diagnostics it reports and the
    model it fills in. *)
Record CreateRequest := mkCreateRequest {
  Plan_diags : Diagnostics;
  Plan_data : VtexUserRoleResourceModel
}.

(** A response: its diagnostics and the state it carries ([None] as
    long as nothing was saved). *)
Record Response := mkResponse {
  Diags : Diagnostics;
  State : option VtexUserRoleResourceModel
}.

Definition emptyModel : VtexUserRoleResourceModel :=
  mkModel StringNull StringNull StringNull StringNull StringNull.

(** [resp.State.SetAttribute(ctx, path.Root(attr), v)] *)
Definition SetAttribute (st : option VtexUserRoleResourceModel)
    (attr v : string) : option VtexUserRoleResourceModel :=
  let m := match st with Some m => m | None => emptyModel end in
  if String.eqb attr "id" then
    Some (mkModel (StringValue v) (Email m) (Name m) (Account m) (RoleName m))
  else if String.eqb attr "email" then
    Some (mkModel (ID m) (StringValue v) (Name m) (Account m) (RoleName m))
  else if String.eqb attr "name" then
    Some (mkModel (ID m) (Email m) (StringValue v) (Account m) (RoleName m))
  else if String.eqb attr "account" then
    Some (mkModel (ID m) (Email m) (Name m) (StringValue v) (RoleName m))
  else if String.eqb attr "role_name" then
    Some (mkModel (ID m) (Email m) (Name m) (Account m) (StringValue v))
  else st.

(** [fmt.Sprintf("%s:%s:%s", email, account, roleName)] *)
Definition formatID (email account roleName : string) : string :=
  (email ++ ":" ++ account ++ ":" ++ roleName)%string.

(** [emailParts[0]]: indexing an empty slice panics ([None]). *)
Definition index0 (parts : list string) : option string :=
  match parts with
  | [] => None
  | p :: _ => Some p
  end.

Section Resource.
Variable env : Env.
Local Open Scope m_scope.

(** [Create] (lines 107-161).  [None] stands for a run-time panic. *)
Definition Create (req : CreateRequest) (resp : Response)
    : M (option Response) :=
  let data := Plan_data req in
  let diags := (Diags resp ++ Plan_diags req)%list in
  if HasError diags then ret (Some (mkResponse diags (State resp)))
  else
    let name := ValueString (Name data) in
    match
      (if String.eqb name ""
       then
         let emailParts :=
           strings.Split (ValueString (Email data)) "@"%char in
         match index0 emailParts with
         | None => None
         | Some n =>
             Some (n, mkModel (ID data) (Email data) (StringValue n)
                              (Account data) (RoleName data))
         end
       else Some (name, data))
    with
    | None => ret None
    | Some (name, data) =>
        let userRole :=
          mkUserRole (ValueString (Email data)) name
                     (ValueString (Account data))
                     (ValueString (RoleName data)) in
        err <- CreateUserRole env userRole ;;
        match err with
        | Some e =>
            ret (Some (mkResponse
                   (AddError diags "Error Creating VTEX User Role"
                      ("Could not create user role, unexpected error: "
                       ++ RequestError_Error e))
                   (State resp)))
        | None =>
            let data :=
              mkModel
                (StringValue
                   (formatID (ValueString (Email data))
                             (ValueString (Account data))
                             (ValueString (RoleName data))))
                (Email data) (Name data) (Account data) (RoleName data) in
            ret (Some (mkResponse diags (Some data)))
        end
    end.
End Resource.

(** [ImportState] (lines 244-263).  [None] stands for a run-time
    panic. *)
Definition ImportState (req_ID : string) (resp : Response)
    : option Response :=
  match strings.SplitN req_ID ":"%char 3 with
  | [p0; p1; p2] =>
      let st := SetAttribute (State resp) "id" req_ID in
      let st := SetAttribute st "email" p0 in
      let st := SetAttribute st "account" p1 in
      let st := SetAttribute st "role_name" p2 in
      let emailParts := strings.Split p0 "@"%char in
      match index0 emailParts with
      | None => None
      | Some n => Some (mkResponse (Diags resp) (SetAttribute st "name" n))
      end
  | _ =>
      Some (mkResponse
              (AddError (Diags resp) "Invalid Import ID"
                 ("Expected import ID format: email:account:role_name, got: "
                  ++ req_ID))
              (State resp))
  end.
End provider.

(** ** The rest of the resource ([vtex_user_role_resource.go]) *)
Module lifecycle.
Import provider.

(** [resource.MetadataRequest] to [resp.TypeName] (lines 40-42). *)
Definition Metadata (ProviderTypeName : string) : string :=
  (ProviderTypeName ++ "_user_role")%string.

(** What [req.ProviderData] can hold: nothing, the client made by the
    provider, or a value of another type (named as [%T] prints it). *)
Inductive ProviderData :=
| NoProviderData
| ClientData (c : VtexClient)
| OtherData (typeName : string).

(** [Configure] (lines 88-105): the resource's [client] field, [None]
    while it is [nil], and the diagnostics of the response. *)
Definition Configure (ProviderData_ : ProviderData)
    (r_client : option VtexClient) (diags : Diagnostics)
    : option VtexClient * Diagnostics :=
  match ProviderData_ with
  | NoProviderData => (r_client, diags)
  | ClientData c => (Some c, diags)
  | OtherData typeName =>
      (r_client,
       AddError diags "Unexpected Resource Configure Type"
         ("Expected *client.VtexClient, got: " ++ typeName
          ++ ". Please report this issue to the provider developers."))
  end.

(** What [req.State.Get(ctx, &data)] or [req.Plan.Get(ctx, &data)]
    yields: its diagnostics and the model it fills in. *)
Record DataRequest := mkDataRequest {
  Get_diags : Diagnostics;
  Get_data : VtexUserRoleResourceModel
}.

(** [Read] (lines 163-182): the state read is saved again. *)
Definition Read (req : DataRequest) (resp : Response) : Response :=
  let diags := (Diags resp ++ Get_diags req)%list in
  if HasError diags then mkResponse diags (State resp)
  else mkResponse diags (Some (Get_data req)).

(** [Update] (lines 184-204): the plan is saved as the state. *)
Definition Update (req : DataRequest) (resp : Response) : Response :=
  let diags := (Diags resp ++ Get_diags req)%list in
  if HasError diags then mkResponse diags (State resp)
  else mkResponse diags (Some (Get_data req)).

Section Delete.
Variable env : Env.
Local Open Scope m_scope.

(** [Delete] (lines 206-242).  The response carries no state of its
    own: the framework drops the resource when no error is reported. *)
Definition Delete (req : DataRequest) (diags0 : Diagnostics)
    : M Diagnostics :=
  let data := Get_data req in
  let diags := (diags0 ++ Get_diags req)%list in
  if HasError diags then ret diags
  else
    let userRole :=
      mkUserRole (ValueString (Email data)) (ValueString (Name data))
                 (ValueString (Account data))
                 (ValueString (RoleName data)) in
    err <- DeleteUserRole env userRole ;;
    match err with
    | Some e =>
        ret (AddError diags "Error Deleting VTEX User Role"
               ("Could not delete user role, unexpected error: "
                ++ RequestError_Error e))
    | None => ret diags
    end.
End Delete.
End lifecycle.

(** ** The provider ([provider.go]) *)
Module vtexProvider.
Import provider lifecycle.

Record VtexProviderModel := mkProviderModel {
  VtexBaseURL : types_String;
  OktaURL : types_String;
  OktaClientID : types_String;
  OktaSecret : types_String;
  OktaGrantType : types_String;
  OktaScope : types_String
}.

(** [Metadata] (lines 40-43): the type name and the version. *)
Definition Metadata (version : string) : string * string :=
  ("vtex"%string, version).

(** [client.NewVtexClient] with the error it returns, which is always
    [nil] ([client.go], lines 58-70). *)
Definition NewVtexClient_err
    (vtexBaseURL oktaURL oktaClientID oktaSecret oktaGrantType oktaScope : string)
    : VtexClient * option string :=
  (NewVtexClient vtexBaseURL oktaURL oktaClientID oktaSecret oktaGrantType
                 oktaScope, None).

(** What [req.Config.Get(ctx, &config)] yields. *)
Record ConfigureRequest := mkConfigureRequest {
  Config_diags : Diagnostics;
  Config_data : VtexProviderModel
}.

Record ConfigureResponse := mkConfigureResponse {
  Diagnostics_ : Diagnostics;
  DataSourceData : ProviderData;
  ResourceData : ProviderData
}.

(** [Configure] (lines 79-109) *)
Definition Configure (req : ConfigureRequest) (resp : ConfigureResponse)
    : ConfigureResponse :=
  let config := Config_data req in
  let diags := (Diagnostics_ resp ++ Config_diags req)%list in
  if HasError diags
  then mkConfigureResponse diags (DataSourceData resp) (ResourceData resp)
  else
    match NewVtexClient_err
            (ValueString (VtexBaseURL config)) (ValueString (OktaURL config))
            (ValueString (OktaClientID config))
            (ValueString (OktaSecret config))
            (ValueString (OktaGrantType config))
            (ValueString (OktaScope config)) with
    | (vtexClient, Some err) =>
        mkConfigureResponse
          (AddError diags "Unable to create VTEX client"
             ("An unexpected error occurred when creating the VTEX API client. "
              ++ "Error: " ++ err))
          (DataSourceData resp) (ResourceData resp)
    | (vtexClient, None) =>
        mkConfigureResponse diags (ClientData vtexClient)
                            (ClientData vtexClient)
    end.
End vtexProvider.

(** * Vocabulary of the statements

    States, classes and predicates in which the properties are
    written; none of them is part of the program. *)

(** The part of a string before the first occurrence of a byte: the
    reading given to "the local part of the email", what stands strictly
    before the first ['@'], the whole string when there is none.  It is
    compared below with what the resource computes. *)
Fixpoint beforeFirst (c : ascii) (s : string) : string :=
  match s with
  | EmptyString => EmptyString
  | String a s' =>
      if Ascii.eqb a c then EmptyString else String a (beforeFirst c s')
  end.

(** The two responses of [ImportState]: the one that reports a
    malformed identifier and the one that carries the imported
    attributes. *)
Definition invalidImportID (req_ID : string) (resp : provider.Response)
    : provider.Response :=
  provider.mkResponse
    (provider.AddError (provider.Diags resp) "Invalid Import ID"
       ("Expected import ID format: email:account:role_name, got: "
        ++ req_ID)%string)
    (provider.State resp).

Definition imported (req_ID email account roleName : string)
    (resp : provider.Response) : provider.Response :=
  provider.mkResponse (provider.Diags resp)
    (Some (provider.mkModel
             (provider.StringValue req_ID) (provider.StringValue email)
             (provider.StringValue (beforeFirst "@" email))
             (provider.StringValue account)
             (provider.StringValue roleName))).

(** The world after one more reading of the clock. *)
Definition tick (w : World) : World :=
  mkWorld (S (ticks w)) (oktaCalls w) (vtexCalls w) (trace w).

(** The world after one more request to the token endpoint. *)
Definition asked (c : VtexClient) (env : Env) (w : World) : World :=
  mkWorld (ticks w) (S (oktaCalls w)) (vtexCalls w)
    (trace w ++ [EvTokenRequest (oktaURL c) (oktaClientID c) (oktaSecret c)
                   (formEncode env (oktaGrantType c) (oktaScope c))]).

(** The client after a token response [tr] stored at instant [now]. *)
Definition stored (c : VtexClient) (tr : OktaTokenResponse) (now : Time)
    : VtexClient :=
  set_tokenExpiry (set_token c (AccessToken tr))
    (now + Int64.mul (Int64.sub (ExpiresIn tr) 300) Second).

(** The world after a request to the VTEX endpoint, and after a sleep. *)
Definition sent (r : Request) (w : World) : World :=
  mkWorld (ticks w) (oktaCalls w) (S (vtexCalls w)) (trace w ++ [EvRequest r]).

Definition slept (d : Duration) (w : World) : World := log w (EvSleep d).

(** The classes of section 4.2 of the specification, read off a result
    of [http.Client.Do]. *)
Inductive Class := Success | AuthRejected | RateLimited | Transient | Permanent.

Definition classify (r : HttpResult) : Class :=
  match r with
  | HttpError _ => Transient
  | HttpResponse status _ =>
      if (200 <=? status) && (status <? 300) then Success
      else if (status =? 401) || (status =? 403) then AuthRejected
      else if (status =? 404) || (status =? 504) || (status =? 429)
      then RateLimited
      else if status >=? 500 then Transient
      else Permanent
  end.

(** The configuration of a client: everything but the cached token. *)
Definition sameConfig (c c' : VtexClient) : Prop :=
  vtexBaseURL c' = vtexBaseURL c /\ oktaURL c' = oktaURL c
  /\ oktaClientID c' = oktaClientID c /\ oktaSecret c' = oktaSecret c
  /\ oktaGrantType c' = oktaGrantType c /\ oktaScope c' = oktaScope c.

Definition isTokenRequest (ev : Event) : Prop :=
  match ev with
  | EvTokenRequest _ _ _ _ => True
  | _ => False
  end.

(** What obtaining a token may do to the state: it talks to the token
    endpoint only. *)
Definition tokenOnly (st st' : St) : Prop :=
  sameConfig (fst st) (fst st')
  /\ vtexCalls (snd st') = vtexCalls (snd st)
  /\ exists evs, trace (snd st') = trace (snd st) ++ evs
                 /\ Forall isTokenRequest evs.

(** The durations slept, in order, as a log of effects records them. *)
Fixpoint sleepsOf (evs : list Event) : list Duration :=
  match evs with
  | [] => []
  | EvSleep d :: evs' => d :: sleepsOf evs'
  | _ :: evs' => sleepsOf evs'
  end.

(** A pass that returns before it sends its request returns one of
    these errors. *)
Definition unsent (r : option RequestError) : Prop :=
  match r with
  | Some (ErrGettingToken _) | Some (ErrMarshaling _)
  | Some (ErrCreatingRequest _) => True
  | _ => False
  end.

(** What a pass returns on an answer that ends the loop. *)
Definition answered (resp : HttpResult) (r : option RequestError) : Prop :=
  match classify resp with
  | Success => r = None
  | AuthRejected =>
      match r with
      | Some (ErrRefreshingToken _) => True
      | _ => False
      end
  | Permanent =>
      match resp with
      | HttpResponse status body => r = Some (ErrRequestFailed status body)
      | HttpError _ => False
      end
  | RateLimited | Transient => False
  end.

(** The locals at the start of an invocation. *)
Definition rs0 : RetryState := mkRetryState baseWait maxWait.

(** The locals of the loop that can occur: those obtained from the
    initial ones by the two ways of backing off. *)
Inductive Reachable : RetryState -> Prop :=
| Reach_init : Reachable rs0
| Reach_backoff rs : Reachable rs -> Reachable (backoff rs)
| Reach_widen rs : Reachable rs -> Reachable (backoff_widen rs).

(** [Pass env m e p st0 k rs st]: in the invocation started in state
    [st0], the pass number [k] (from 0) begins with locals [rs] in state
    [st]. *)
Inductive Pass (env : Env) (m e : string) (p : UserRoleRequest) (st0 : St)
  : nat -> RetryState -> St -> Prop :=
| Pass_first : Pass env m e p st0 O rs0 st0
| Pass_next k rs st rs' st' :
    Pass env m e p st0 k rs st ->
    attempt env m e p rs st = (Continue rs', st') ->
    Pass env m e p st0 (S k) rs' st'.

Definition RetryState_eqb (a b : RetryState) : bool :=
  (currentWait a =? currentWait b) && (currentMaxWait a =? currentMaxWait b).

Definition inTable (l : list RetryState) (rs : RetryState) : bool :=
  existsb (RetryState_eqb rs) l.

Definition addNew (l : list RetryState) (rs : RetryState) : list RetryState :=
  if inTable l rs then l else l ++ [rs].

Definition grow (l : list RetryState) : list RetryState :=
  fold_left (fun acc rs => addNew (addNew acc (backoff rs)) (backoff_widen rs))
            l l.

(** All the locals the loop can hold: the closure of the initial ones
    under [backoff] and [backoff_widen], computed. *)
Definition backoffTable : list RetryState :=
  Eval vm_compute in Nat.iter 16 grow [rs0].

(** What is checked of every entry of the table. *)
Definition lawful (rs : RetryState) : bool :=
  let w := currentWait rs in
  let c := currentMaxWait rs in
  inTable backoffTable (backoff rs)
  && inTable backoffTable (backoff_widen rs)
  && (scale w adjustFactor =? w * 3 / 2)
  && (scale c Float64.c1_1 =? c * 11 / 10)
  && (0 <? w) && (w <=? c) && (5 * Second <=? c) && (c <=? 15 * Second).

(** The classes on which a pass sleeps and leaves the rest to the next
    pass. *)
Definition sleepy (cls : Class) : Prop := cls = Transient \/ cls = RateLimited.

(** The waits of [n] passes that all end in [backoff]. *)
Fixpoint waits (n : nat) (rs : RetryState) : list Duration :=
  match n with
  | O => []
  | S n' => currentWait rs :: waits n' (backoff rs)
  end.

(** The client with its cached token and expiry cleared. *)
Definition cleared (c : VtexClient) : VtexClient :=
  set_tokenExpiry (set_token c "") zeroTime.

(** The events an invocation for method [m], endpoint [e] and payload
    [p] may add to the log when the client is configured as [c]: a
    request to the token endpoint with the credentials of [c], a request
    to the endpoint with the payload and some bearer token, a sleep. *)
Definition expectedEvent (env : Env) (c : VtexClient) (m e : string)
    (p : UserRoleRequest) (ev : Event) : Prop :=
  match ev with
  | EvTokenRequest url clientID secret form =>
      url = oktaURL c /\ clientID = oktaClientID c /\ secret = oktaSecret c
      /\ form = formEncode env (oktaGrantType c) (oktaScope c)
  | EvRequest r =>
      req_method r = m
      /\ req_url r = (vtexBaseURL c ++ e)%string
      /\ jsonMarshal env p = inr (req_body r)
      /\ exists tok, req_authorization r = ("Bearer " ++ tok)%string
  | EvSleep d => 0 < d <= 15 * Second
  end.

(** The sum of a list of durations. *)
Definition total (ds : list Duration) : Duration := fold_right Z.add 0 ds.

(** The user a model of the resource stands for. *)
Definition userOf (data : provider.VtexUserRoleResourceModel) : UserRole :=
  mkUserRole (provider.ValueString (provider.Email data))
             (provider.ValueString (provider.Name data))
             (provider.ValueString (provider.Account data))
             (provider.ValueString (provider.RoleName data)).

(** What a result says about the requests sent.  [k] is the number of
    the last answer received. *)
Definition resultMeans (env : Env) (before after budget : nat)
    (r : option RequestError) : Prop :=
  match r with
  | None =>
      exists k status body,
        (before <= k)%nat /\ after = S k
        /\ vtexDo env k = HttpResponse status body /\ 200 <= status < 300
  | Some (ErrRequestFailed status body) =>
      exists k,
        (before <= k)%nat /\ after = S k
        /\ vtexDo env k = HttpResponse status body
        /\ classify (vtexDo env k) = Permanent
  | Some (ErrRefreshingToken _) =>
      exists k status body,
        (before <= k)%nat /\ after = S k
        /\ vtexDo env k = HttpResponse status body
        /\ (status = 401 \/ status = 403)
  | Some ErrMaxRetries => after = (before + budget)%nat
  | Some (ErrGettingToken _) | Some (ErrMarshaling _)
  | Some (ErrCreatingRequest _) => (after < before + budget)%nat
  end.

(** The token endpoint grants a token whenever it is asked. *)
Definition grants (env : Env) (c : VtexClient) : Prop :=
  newRequest env "POST" (oktaURL c) = None
  /\ forall k, exists body tr,
       oktaDo env k = HttpResponse 200 body
       /\ jsonDecodeToken env body = inr tr.

(** * Concrete environments

    Scripted worlds on which the statements below are instantiated. *)
Module examples.
Local Open Scope string_scope.

Definition client0 : VtexClient :=
  NewVtexClient "https://vendor.myvtex.com" "https://id.example/token"
                "client-id" "client-secret" "client_credentials" "vtex".

Definition user0 : UserRole := mkUserRole "a@b.com" "a" "vendor" "Owner".
Definition payload0 : UserRoleRequest := mkUserRoleRequest [user0].

(** A client holding the token ["T0"], good until the instant [10^18]. *)
Definition client1 : VtexClient :=
  set_tokenExpiry (set_token client0 "T0") (10 ^ 18).

(** The clock stands at [1000]; the token endpoint and the VTEX endpoint
    answer from the two scripts and are unreachable past their end; a
    token response with body [b] decodes to the token [b] with the given
    lifetime, except the body ["<html>"], which does not decode. *)
Definition scripted (lifetime : Z) (okta vtex : list HttpResult) : Env :=
  mkEnv (fun _ => 1000)
        (fun k => nth k okta (HttpError "no route to host"))
        (fun k => nth k vtex (HttpError "no route to host"))
        (fun _ _ => None)
        (fun _ => inr "{users}")
        (fun b => if String.eqb b "<html>"
                  then inl "invalid character '<'"
                  else inr (mkOktaTokenResponse b "Bearer" lifetime))
        (fun g s => "grant_type=" ++ g ++ "&scope=" ++ s).

Definition status (code : Z) : HttpResult := HttpResponse code "".

(** The request the client sends for [payload0] with token [tok]. *)
Definition request0 (tok : string) : Request :=
  mkRequest "POST" "https://vendor.myvtex.com/_v/create-user-role"
            ("Bearer " ++ tok) "{users}".

Definition tokenRequest0 : Event :=
  EvTokenRequest "https://id.example/token" "client-id" "client-secret"
                 "grant_type=client_credentials&scope=vtex".
End examples.

(** * Facts about splitting *)
Module stringsFacts.
Import strings.
Local Open Scope nat_scope.

Lemma IndexByte_None_Count s c : IndexByte s c = None <-> Count s c = 0.
Proof.
  induction s as [|a s IH]; simpl; [tauto|].
  destruct (Ascii.eqb a c); [split; discriminate|].
  rewrite <- IH. destruct (IndexByte s c); simpl; split; congruence.
Qed.

Lemma Count_le_length s c : Count s c <= String.length s.
Proof.
  induction s as [|a s IH]; simpl; [lia|].
  destruct (Ascii.eqb a c); lia.
Qed.

Lemma IndexByte_Some s c m :
  IndexByte s c = Some m ->
  s = (take m s ++ String c (drop (m + 1) s))%string
  /\ Count (take m s) c = 0
  /\ Count s c = S (Count (drop (m + 1) s) c)
  /\ take m s = beforeFirst c s.
Proof.
  revert m. induction s as [|a s IH]; simpl; intros m H; [discriminate|].
  destruct (Ascii.eqb_spec a c) as [->|Hne].
  - injection H as <-. simpl. auto.
  - destruct (IndexByte s c) as [k|] eqn:E; [|discriminate].
    injection H as <-. destruct (IH k eq_refl) as (H1 & H2 & H3 & H4).
    simpl. rewrite <- H1.
    destruct (Ascii.eqb_spec a c); [contradiction|].
    rewrite <- H4. auto.
Qed.

Lemma beforeFirst_absent s c : Count s c = 0 -> beforeFirst c s = s.
Proof.
  induction s as [|a s IH]; simpl; [reflexivity|].
  destruct (Ascii.eqb a c); [discriminate|]. intros H. now rewrite IH.
Qed.

Lemma beforeFirst_app l r c :
  Count l c = 0 -> beforeFirst c (l ++ String c r) = l.
Proof.
  induction l as [|a l IH]; simpl.
  - now rewrite Ascii.eqb_refl.
  - destruct (Ascii.eqb a c); [discriminate|]. intros H. now rewrite IH.
Qed.

Lemma IndexByte_app l r c :
  Count l c = 0 -> IndexByte (l ++ String c r) c = Some (String.length l).
Proof.
  induction l as [|a l IH]; simpl.
  - now rewrite Ascii.eqb_refl.
  - destruct (Ascii.eqb a c); [discriminate|]. intros H. now rewrite IH.
Qed.

Lemma take_app l r : take (String.length l) (l ++ r) = l.
Proof.
  induction l as [|a l IH]; simpl; [now destruct r|]. now rewrite IH.
Qed.

Lemma drop_app l c r : drop (String.length l + 1) (l ++ String c r) = r.
Proof. induction l as [|a l IH]; simpl; auto. Qed.

Lemma length_app l r :
  String.length (l ++ r) = String.length l + String.length r.
Proof. induction l as [|a l IH]; simpl; auto. Qed.

Lemma splitLoop_length n s c :
  List.length (splitLoop n s c) = S (Nat.min n (Count s c)).
Proof.
  revert s. induction n as [|n IH]; intros s; simpl; [reflexivity|].
  destruct (IndexByte s c) as [m|] eqn:E.
  - destruct (IndexByte_Some _ _ _ E) as (_ & _ & -> & _).
    simpl. now rewrite IH.
  - apply IndexByte_None_Count in E. now rewrite E.
Qed.

Lemma Split_eq s c : Split s c = splitLoop (Count s c) s c.
Proof.
  unfold Split, SplitN. simpl.
  pose proof (Count_le_length s c).
  now rewrite Nat.min_l by assumption.
Qed.

Lemma Split_length s c : List.length (Split s c) = S (Count s c).
Proof. rewrite Split_eq, splitLoop_length. lia. Qed.

Lemma SplitN3_eq s c :
  SplitN s c 3 = splitLoop (Nat.min 2 (String.length s)) s c.
Proof.
  unfold SplitN. simpl. reflexivity.
Qed.

Lemma SplitN3_length s c :
  List.length (SplitN s c 3) = Nat.min 3 (S (Count s c)).
Proof.
  rewrite SplitN3_eq, splitLoop_length.
  pose proof (Count_le_length s c). lia.
Qed.

(** The first element of [Split s c] is what precedes the first [c]. *)
Lemma Split_head s c :
  exists rest, Split s c = beforeFirst c s :: rest.
Proof.
  rewrite Split_eq.
  destruct (Count s c) as [|k] eqn:E; simpl.
  - exists []. now rewrite beforeFirst_absent.
  - destruct (IndexByte s c) as [m|] eqn:I.
    + destruct (IndexByte_Some _ _ _ I) as (_ & _ & _ & ->). eauto.
    + apply IndexByte_None_Count in I. congruence.
Qed.

(** With at least two separators, [SplitN _ _ 3] cuts at the first two
    and keeps the rest whole. *)
Lemma SplitN3_two_seps s c :
  2 <= Count s c ->
  exists e a r,
    s = (e ++ String c (a ++ String c r))%string
    /\ Count e c = 0 /\ Count a c = 0
    /\ SplitN s c 3 = [e; a; r].
Proof.
  intros H. rewrite SplitN3_eq.
  pose proof (Count_le_length s c).
  replace (Nat.min 2 (String.length s)) with 2 by lia. simpl.
  destruct (IndexByte s c) as [m|] eqn:I;
    [|apply IndexByte_None_Count in I; lia].
  destruct (IndexByte_Some _ _ _ I) as (H1 & H2 & H3 & _).
  destruct (IndexByte (drop (m + 1) s) c) as [k|] eqn:J;
    [|apply IndexByte_None_Count in J; lia].
  destruct (IndexByte_Some _ _ _ J) as (K1 & K2 & _ & _).
  exists (take m s), (take k (drop (m + 1) s)),
         (drop (k + 1) (drop (m + 1) s)).
  repeat split; auto. now rewrite <- K1.
Qed.

Lemma SplitN3_formatted e a r c :
  Count e c = 0 -> Count a c = 0 ->
  SplitN (e ++ String c (a ++ String c r)) c 3 = [e; a; r].
Proof.
  intros He Ha. rewrite SplitN3_eq.
  assert (L : 2 <= String.length (e ++ String c (a ++ String c r))).
  { rewrite length_app. cbn [String.length]. rewrite length_app.
    cbn [String.length]. lia. }
  rewrite (Nat.min_l _ _ L).
  simpl. rewrite (IndexByte_app e _ c He), take_app, drop_app.
  now rewrite (IndexByte_app a _ c Ha), take_app, drop_app.
Qed.
End stringsFacts.

(** * The resource identifier: [Create] and [ImportState] *)
Module providerFacts.
Import strings provider stringsFacts.
Local Open Scope string_scope.

Lemma HasError_AddError ds s d : HasError (AddError ds s d) = true.
Proof.
  unfold HasError, AddError. rewrite existsb_app. simpl.
  now rewrite orb_true_r.
Qed.

Lemma ImportState_three p0 p1 p2 req_ID resp :
  SplitN req_ID ":" 3 = [p0; p1; p2] ->
  ImportState req_ID resp = Some (imported req_ID p0 p1 p2 resp).
Proof.
  intros H. unfold ImportState. rewrite H.
  destruct (Split_head p0 "@") as [rest ->]. reflexivity.
Qed.

Lemma ImportState_fewer req_ID resp :
  (Count req_ID ":" < 2)%nat ->
  ImportState req_ID resp = Some (invalidImportID req_ID resp).
Proof.
  intros H. unfold ImportState.
  generalize (SplitN3_length req_ID ":").
  destruct (SplitN req_ID ":" 3) as [|a [|b [|c [|d l]]]];
    cbn [List.length]; intros L; try reflexivity; lia.
Qed.
Lemma import_cases req_ID resp :
  (exists e a ro,
      SplitN req_ID ":" 3 = [e; a; ro]
      /\ ImportState req_ID resp = Some (imported req_ID e a ro resp))
  \/ ((Count req_ID ":" < 2)%nat
      /\ ImportState req_ID resp = Some (invalidImportID req_ID resp)).
Proof.
  destruct (Nat.le_gt_cases 2 (Count req_ID ":")) as [H|H].
  - left. destruct (SplitN3_two_seps _ _ H) as (e & a & r & _ & _ & _ & S).
    exists e, a, r. split; [exact S|]. now apply ImportState_three.
  - right. split; [exact H|]. now apply ImportState_fewer.
Qed.
End providerFacts.

(** * The token cache *)
Module tokenFacts.

Ltac run_m :=
  unfold bind, ret, getClient, getWorld, putClient, putWorld, timeNow,
         timeSleep, doTokenRequest, doRequest; cbn [fst snd].

Ltac run_m_in H :=
  unfold bind, ret, getClient, getWorld, putClient, putWorld, timeNow,
         timeSleep, doTokenRequest, doRequest in H; cbn [fst snd] in H.

Lemma tokenUsable_eq env c w :
  tokenUsable env (c, w) =
    if String.eqb (token c) "" then (false, (c, w))
    else (clock env (ticks w) <? tokenExpiry c, (c, tick w)).
Proof.
  unfold tokenUsable. run_m. destruct (String.eqb (token c) ""); reflexivity.
Qed.

Lemma getToken_cached env c w :
  token c <> ""%string -> clock env (ticks w) < tokenExpiry c ->
  getToken env (c, w) = (Ok (token c), (c, tick w)).
Proof.
  intros Hne Hlt. unfold getToken, bind at 1. rewrite tokenUsable_eq.
  apply String.eqb_neq in Hne. rewrite Hne.
  apply Z.ltb_lt in Hlt. rewrite Hlt. reflexivity.
Qed.

(** When both tests fail, the outcome is decided by the token endpoint. *)
Lemma getToken_renew env c w st1 st2 :
  tokenUsable env (c, w) = (false, st1) ->
  tokenUsable env st1 = (false, st2) ->
  fst st2 = c /\
  getToken env (c, w) =
    match newRequest env "POST" (oktaURL c) with
    | Some cause => (Err (ErrCreatingTokenRequest cause), st2)
    | None =>
        let w3 := asked c env (snd st2) in
        match oktaDo env (oktaCalls (snd st2)) with
        | HttpError cause => (Err (ErrRequestingToken cause), (c, w3))
        | HttpResponse status body =>
            if negb (status =? 200)
            then (Err (ErrObtainingToken status body), (c, w3))
            else
              match jsonDecodeToken env body with
              | inl cause => (Err (ErrDecodingToken cause), (c, w3))
              | inr tr =>
                  (Ok (AccessToken tr),
                   (stored c tr (clock env (ticks w3)), tick w3))
              end
        end
    end.
Proof.
  intros H1 H2.
  assert (E1 : fst st1 = c).
  { rewrite tokenUsable_eq in H1.
    destruct (String.eqb (token c) ""); inversion H1; reflexivity. }
  destruct st1 as [c1 w1]. simpl in E1. subst c1.
  assert (E2 : fst st2 = c).
  { rewrite tokenUsable_eq in H2.
    destruct (String.eqb (token c) ""); inversion H2; reflexivity. }
  destruct st2 as [c2 w2]. simpl in E2. subst c2.
  split; [reflexivity|].
  unfold getToken, bind at 1. rewrite H1.
  unfold bind at 1. rewrite H2. run_m.
  destruct (newRequest env "POST" (oktaURL c)); [reflexivity|].
  cbn [fst snd].
  destruct (oktaDo env (oktaCalls w2)) as [cause|status body]; [reflexivity|].
  destruct (negb (status =? 200)); [reflexivity|].
  destruct (jsonDecodeToken env body); reflexivity.
Qed.
End tokenFacts.

(** * One pass of the retry loop *)
Module attemptFacts.
Import tokenFacts.

Ltac frame_leaf :=
  unfold tokenOnly, sameConfig; cbn;
  repeat split; try reflexivity;
  first [ exists []; split; [now rewrite app_nil_r | constructor]
        | eexists [_]; split; [reflexivity | repeat constructor] ].

Lemma sameConfig_refl c : sameConfig c c.
Proof. unfold sameConfig. tauto. Qed.

Lemma sameConfig_trans a b c : sameConfig a b -> sameConfig b c -> sameConfig a c.
Proof. unfold sameConfig. intuition congruence. Qed.

Lemma tokenOnly_trans a b c : tokenOnly a b -> tokenOnly b c -> tokenOnly a c.
Proof.
  intros (C1 & V1 & e1 & T1 & F1) (C2 & V2 & e2 & T2 & F2).
  split; [eapply sameConfig_trans; eauto|]. split; [congruence|].
  exists (e1 ++ e2). split.
  - rewrite T2, T1. now rewrite app_assoc.
  - apply Forall_app. auto.
Qed.

Lemma getToken_tokenOnly env st r st' :
  getToken env st = (r, st') -> tokenOnly st st'.
Proof.
  destruct st as [c w]. unfold getToken, bind at 1.
  rewrite tokenUsable_eq.
  destruct (String.eqb (token c) "") eqn:E.
  - unfold bind at 1. rewrite tokenUsable_eq, E. run_m.
    destruct (newRequest env "POST" (oktaURL c));
      [intros H; inversion H; frame_leaf|].
    cbn [fst snd].
    destruct (oktaDo env (oktaCalls w)) as [cause|status body];
      [intros H; inversion H; frame_leaf|].
    destruct (negb (status =? 200)); [intros H; inversion H; frame_leaf|].
    destruct (jsonDecodeToken env body); intros H; inversion H; frame_leaf.
  - destruct (clock env (ticks w) <? tokenExpiry c).
    + run_m. intros H; inversion H; frame_leaf.
    + unfold bind at 1. rewrite tokenUsable_eq, E.
      destruct (clock env (ticks (tick w)) <? tokenExpiry c).
      * run_m. intros H; inversion H; frame_leaf.
      * run_m.
        destruct (newRequest env "POST" (oktaURL c));
          [intros H; inversion H; frame_leaf|].
        cbn [fst snd].
        destruct (oktaDo env (oktaCalls (tick (tick w))))
          as [cause|status body];
          [intros H; inversion H; frame_leaf|].
        destruct (negb (status =? 200)); [intros H; inversion H; frame_leaf|].
        destruct (jsonDecodeToken env body); intros H; inversion H; frame_leaf.
Qed.

Lemma refreshToken_eq env c w :
  refreshToken env (c, w) =
    getToken env (set_tokenExpiry (set_token c "") zeroTime, w).
Proof. reflexivity. Qed.

Lemma refreshToken_tokenOnly env st r st' :
  refreshToken env st = (r, st') -> tokenOnly st st'.
Proof.
  destruct st as [c w]. rewrite refreshToken_eq. intros H.
  apply getToken_tokenOnly in H.
  eapply tokenOnly_trans; [|exact H]. frame_leaf.
Qed.
End attemptFacts.

(** * What a pass does to the loop *)
Module passFacts.
Import tokenFacts attemptFacts.

Lemma sleepsOf_app a b : sleepsOf (a ++ b) = sleepsOf a ++ sleepsOf b.
Proof.
  induction a as [|ev a IH]; simpl; [reflexivity|].
  destruct ev; simpl; now rewrite IH.
Qed.

Lemma sleepsOf_tokenRequests evs : Forall isTokenRequest evs -> sleepsOf evs = [].
Proof.
  induction 1 as [|ev evs H _ IH]; simpl; [reflexivity|].
  destruct ev; simpl in H; try contradiction. exact IH.
Qed.

Lemma tokenOnly_sleeps st st' :
  tokenOnly st st' -> sleepsOf (trace (snd st')) = sleepsOf (trace (snd st)).
Proof.
  intros (_ & _ & evs & -> & F).
  now rewrite sleepsOf_app, (sleepsOf_tokenRequests _ F), app_nil_r.
Qed.

Ltac split_all := repeat match goal with |- _ /\ _ => split end.

Ltac leaf S1 :=
  cbn; rewrite ?sleepsOf_app, ?S1; cbn [sleepsOf]; rewrite ?app_nil_r;
  split_all; auto; try lia;
  try (left; split; [lia | exact I]);
  try (right; split; [lia | first [reflexivity | exact I]]).

(** A pass that fails to get a token returns that failure. *)
Lemma attempt_token_error env m e p rs st err st1 :
  getToken env st = (Err err, st1) ->
  attempt env m e p rs st = (Return (Some (ErrGettingToken err)), st1).
Proof. intros G. unfold attempt, bind at 1. now rewrite G. Qed.

(** A pass that gets a token and can build its request sends it; what
    follows depends on the answer alone. *)
Lemma attempt_sent env m e p rs st tok st1 jd :
  getToken env st = (Ok tok, st1) ->
  jsonMarshal env p = inr jd ->
  newRequest env m (vtexBaseURL (fst st1) ++ e) = None ->
  attempt env m e p rs st =
    let rq := mkRequest m (vtexBaseURL (fst st1) ++ e)
                        ("Bearer " ++ tok) jd in
    let st2 := (fst st1, sent rq (snd st1)) in
    match vtexDo env (vtexCalls (snd st1)) with
    | HttpError _ =>
        (Continue (backoff rs), (fst st1, slept (currentWait rs) (snd st2)))
    | HttpResponse status body =>
        if (200 <=? status) && (status <? 300) then (Return None, st2)
        else if (status =? 401) || (status =? 403) then
          let (r, st3) := refreshToken env st2 in
          (match r with
           | Err err => Return (Some (ErrRefreshingToken err))
           | Ok _ => Continue rs
           end, st3)
        else if (status =? 404) || (status =? 504) || (status =? 429) then
          (Continue (backoff_widen rs),
           (fst st1, slept (currentWait rs) (snd st2)))
        else if status >=? 500 then
          (Continue (backoff rs), (fst st1, slept (currentWait rs) (snd st2)))
        else (Return (Some (ErrRequestFailed status body)), st2)
    end.
Proof.
  intros G J N. destruct st1 as [c1 w1]. cbn [fst snd] in *.
  unfold attempt, bind at 1. rewrite G, J. run_m. rewrite N. cbn [fst snd].
  destruct (vtexDo env (vtexCalls w1)) as [cause|status body]; [reflexivity|].
  destruct ((200 <=? status) && (status <? 300)); [reflexivity|].
  destruct ((status =? 401) || (status =? 403)).
  - destruct (refreshToken env _) as [[tk|err] st3]; reflexivity.
  - destruct ((status =? 404) || (status =? 504) || (status =? 429));
      [reflexivity|].
    destruct (status >=? 500); reflexivity.
Qed.

(** What any pass does, whatever the environment. *)
Lemma attempt_step env m e p rs st nx st' :
  attempt env m e p rs st = (nx, st') ->
  sameConfig (fst st) (fst st') /\
  match nx with
  | Continue rs' =>
      vtexCalls (snd st') = S (vtexCalls (snd st)) /\
      match classify (vtexDo env (vtexCalls (snd st))) with
      | AuthRejected =>
          rs' = rs
          /\ sleepsOf (trace (snd st')) = sleepsOf (trace (snd st))
      | RateLimited =>
          rs' = backoff_widen rs
          /\ sleepsOf (trace (snd st'))
             = sleepsOf (trace (snd st)) ++ [currentWait rs]
      | Transient =>
          rs' = backoff rs
          /\ sleepsOf (trace (snd st'))
             = sleepsOf (trace (snd st)) ++ [currentWait rs]
      | Success | Permanent => False
      end
  | Return r =>
      sleepsOf (trace (snd st')) = sleepsOf (trace (snd st))
      /\ ((vtexCalls (snd st') = vtexCalls (snd st) /\ unsent r)
          \/ (vtexCalls (snd st') = S (vtexCalls (snd st))
              /\ answered (vtexDo env (vtexCalls (snd st))) r))
  end.
Proof.
  intros A.
  destruct (getToken env st) as [[tok|err] st1] eqn:G.
  2:{ rewrite (attempt_token_error _ _ _ _ _ _ _ _ G) in A.
      inversion A; subst. apply getToken_tokenOnly in G.
      pose proof (tokenOnly_sleeps _ _ G) as S1.
      destruct G as (C & V & _). leaf S1. }
  pose proof (getToken_tokenOnly _ _ _ _ G) as F.
  pose proof (tokenOnly_sleeps _ _ F) as S1.
  destruct F as (C & V & _).
  destruct (jsonMarshal env p) as [cause|jd] eqn:J.
  { unfold attempt, bind at 1 in A. rewrite G, J in A.
    inversion A; subst. leaf S1. }
  destruct (newRequest env m (vtexBaseURL (fst st1) ++ e)) as [cause|] eqn:N.
  { unfold attempt, bind at 1 in A. rewrite G, J in A. run_m_in A.
    rewrite N in A. inversion A; subst. leaf S1. }
  rewrite (attempt_sent _ _ _ _ _ _ _ _ _ G J N) in A. cbv zeta in A.
  rewrite V in A. unfold answered, classify.
  destruct (vtexDo env (vtexCalls (snd st))) as [cause|status body].
  { inversion A; subst. leaf S1. }
  destruct ((200 <=? status) && (status <? 300)).
  { inversion A; subst. leaf S1. }
  destruct ((status =? 401) || (status =? 403)).
  { destruct (refreshToken env _) as [r st3] eqn:R.
    apply refreshToken_tokenOnly in R.
    pose proof (tokenOnly_sleeps _ _ R) as S3.
    destruct R as (C3 & V3 & _). cbn in S3, V3, C3.
    rewrite sleepsOf_app, S1 in S3. cbn [sleepsOf] in S3.
    rewrite app_nil_r in S3.
    assert (CC : sameConfig (fst st) (fst st3))
      by (eapply sameConfig_trans; eauto).
    destruct r; inversion A; subst; leaf S3. }
  destruct ((status =? 404) || (status =? 504) || (status =? 429)).
  { inversion A; subst. leaf S1. }
  destruct (status >=? 500).
  { inversion A; subst. leaf S1. }
  inversion A; subst. leaf S1.
Qed.
End passFacts.

(** * The retry loop *)
Module loopFacts.
Import tokenFacts attemptFacts passFacts.

Lemma backoffTable_lawful : forallb lawful backoffTable = true.
Proof. vm_compute. reflexivity. Qed.

Lemma RetryState_eqb_eq a b : RetryState_eqb a b = true -> a = b.
Proof.
  destruct a, b. unfold RetryState_eqb. simpl.
  rewrite andb_true_iff, !Z.eqb_eq. intros [-> ->]. reflexivity.
Qed.

Lemma inTable_In l rs : inTable l rs = true -> In rs l.
Proof.
  unfold inTable. rewrite existsb_exists. intros (x & I & E).
  apply RetryState_eqb_eq in E. now subst.
Qed.

Lemma Reachable_lawful rs : Reachable rs -> lawful rs = true.
Proof.
  pose proof backoffTable_lawful as T. rewrite forallb_forall in T.
  assert (K : forall r, lawful r = true ->
                        In (backoff r) backoffTable
                        /\ In (backoff_widen r) backoffTable).
  { intros r L. unfold lawful in L. cbv zeta in L.
    rewrite !andb_true_iff in L.
    split; apply inTable_In; tauto. }
  induction 1 as [|rs R IH|rs R IH].
  - apply T. vm_compute. auto.
  - apply T. now apply K.
  - apply T. now apply K.
Qed.

(** The arithmetic of the two accumulators, on the locals that occur. *)
Lemma Reachable_bounds rs :
  Reachable rs ->
  0 < currentWait rs <= currentMaxWait rs
  /\ 5 * Second <= currentMaxWait rs <= 15 * Second
  /\ backoff rs =
       mkRetryState
         (Z.min (currentWait rs * 3 / 2) (currentMaxWait rs))
         (currentMaxWait rs)
  /\ backoff_widen rs =
       mkRetryState
         (Z.min (currentWait rs * 3 / 2) (currentMaxWait rs))
         (Z.min (currentMaxWait rs * 11 / 10) (15 * Second)).
Proof.
  intros R. apply Reachable_lawful in R. unfold lawful in R. cbv zeta in R.
  rewrite !andb_true_iff in R.
  destruct R as [[[[[[[_ _] W] C] P] L] Lo] Hi].
  apply Z.eqb_eq in W, C. apply Z.ltb_lt in P.
  apply Z.leb_le in L, Lo, Hi.
  unfold backoff, backoff_widen. rewrite W, C. repeat split; assumption.
Qed.

Lemma retryLoop_S env n m e p rs st :
  retryLoop env (S n) m e p rs st =
    let (nx, st') := attempt env m e p rs st in
    match nx with
    | Return err => (err, st')
    | Continue rs' => retryLoop env n m e p rs' st'
    end.
Proof.
  cbn [retryLoop]. unfold bind at 1.
  destruct (attempt env m e p rs st) as [[err|rs'] st']; reflexivity.
Qed.

(** [Pass] describes the loop: from a pass on, the invocation is the
    rest of the loop. *)
Lemma Pass_adequate env m e p st0 k rs st :
  Pass env m e p st0 k rs st ->
  (k <= maxRetries)%nat ->
  doRequestWithRetry env m e p st0
  = retryLoop env (maxRetries - k) m e p rs st.
Proof.
  induction 1 as [|k rs st rs' st' P IH A]; intros Hk.
  - reflexivity.
  - rewrite IH by lia.
    replace (maxRetries - k)%nat with (S (maxRetries - S k)) by lia.
    rewrite retryLoop_S, A. reflexivity.
Qed.

Lemma Pass_Reachable env m e p st0 k rs st :
  Pass env m e p st0 k rs st -> Reachable rs.
Proof.
  induction 1 as [|k rs st rs' st' P IH A]; [constructor|].
  apply attempt_step in A. destruct A as (_ & _ & A).
  destruct (classify (vtexDo env (vtexCalls (snd st))));
    try contradiction; destruct A as [-> _];
    auto using Reach_backoff, Reach_widen.
Qed.
End loopFacts.

(** * The properties *)

Import tokenFacts attemptFacts passFacts loopFacts.

(** ** The classes of answers *)

Lemma classify_AuthRejected r :
  classify r = AuthRejected <->
  exists status body,
    r = HttpResponse status body /\ (status = 401 \/ status = 403).
Proof.
  split.
  - destruct r as [cause|status body]; [discriminate|]. unfold classify.
    destruct ((200 <=? status) && (status <? 300)); [discriminate|].
    destruct ((status =? 401) || (status =? 403)) eqn:E.
    + intros _. exists status, body. split; [reflexivity|]. lia.
    + destruct ((status =? 404) || (status =? 504) || (status =? 429));
        [discriminate|].
      destruct (status >=? 500); discriminate.
  - intros (status & body & -> & [-> | ->]); reflexivity.
Qed.

Lemma classify_Transient r :
  classify r = Transient <->
  (exists cause, r = HttpError cause)
  \/ exists status body,
       r = HttpResponse status body /\ 500 <= status /\ status <> 504.
Proof.
  split.
  - destruct r as [cause|status body]; [intros _; left; eauto|].
    unfold classify.
    destruct ((200 <=? status) && (status <? 300)); [discriminate|].
    destruct ((status =? 401) || (status =? 403)); [discriminate|].
    destruct ((status =? 404) || (status =? 504) || (status =? 429)) eqn:E;
      [discriminate|].
    destruct (status >=? 500) eqn:G; [|discriminate].
    intros _. right. exists status, body. split; [reflexivity|]. lia.
  - intros [(cause & ->)|(status & body & -> & H5 & H4)]; [reflexivity|].
    unfold classify.
    replace ((200 <=? status) && (status <? 300)) with false by lia.
    replace ((status =? 401) || (status =? 403)) with false by lia.
    replace ((status =? 404) || (status =? 504) || (status =? 429))
      with false by lia.
    replace (status >=? 500) with true by lia. reflexivity.
Qed.

Lemma classify_RateLimited r :
  classify r = RateLimited <->
  exists status body,
    r = HttpResponse status body
    /\ (status = 404 \/ status = 504 \/ status = 429).
Proof.
  split.
  - destruct r as [cause|status body]; [discriminate|]. unfold classify.
    destruct ((200 <=? status) && (status <? 300)); [discriminate|].
    destruct ((status =? 401) || (status =? 403)); [discriminate|].
    destruct ((status =? 404) || (status =? 504) || (status =? 429)) eqn:E.
    + intros _. exists status, body. split; [reflexivity|]. lia.
    + destruct (status >=? 500); discriminate.
  - intros (status & body & -> & [-> | [-> | ->]]); reflexivity.
Qed.

Lemma sleepy_classify r :
  sleepy (classify r) <->
  (exists cause, r = HttpError cause)
  \/ exists status body,
       r = HttpResponse status body
       /\ (status = 404 \/ status = 429 \/ 500 <= status).
Proof.
  unfold sleepy. rewrite classify_Transient, classify_RateLimited. split.
  - intros [[H|(s & b & -> & H)]|(s & b & -> & H)].
    + left. exact H.
    + right. exists s, b. split; [reflexivity|]. lia.
    + right. exists s, b. split; [reflexivity|]. lia.
  - intros [H|(s & b & -> & H)].
    + left. left. exact H.
    + destruct (Z.eq_dec s 504) as [->|N].
      * right. exists 504, b. split; [reflexivity|]. lia.
      * destruct (Z.eq_dec s 404) as [->|N4];
          [right; exists 404, b; split; [reflexivity|lia]|].
        destruct (Z.eq_dec s 429) as [->|N9];
          [right; exists 429, b; split; [reflexivity|lia]|].
        left. right. exists s, b. split; [reflexivity|]. lia.
Qed.

(** ** Token errors *)

(** C1, as stated, fails.  The token endpoint is unreachable for the
    first request and would answer the second: the invocation returns
    the token error after that single request and sends nothing to VTEX.
    Likewise when the forced refresh after a 401 fails. *)
Lemma token_error_is_returned_at_once :
  CreateUserRole
    (examples.scripted 3600
       [HttpError "connection refused"; HttpResponse 200 "T1"]
       [examples.status 200])
    examples.user0 (examples.client0, world0)
  = (Some (ErrGettingToken (ErrRequestingToken "connection refused")),
     (examples.client0, mkWorld 0 1 0 [examples.tokenRequest0]))
  /\
  CreateUserRole
    (examples.scripted 3600
       [HttpError "connection refused"; HttpResponse 200 "T1"]
       [examples.status 401; examples.status 200])
    examples.user0 (examples.client1, world0)
  = (Some (ErrRefreshingToken (ErrRequestingToken "connection refused")),
     (examples.client0,
      mkWorld 1 1 1 [EvRequest (examples.request0 "T0");
                     examples.tokenRequest0])).
Proof. split; vm_compute; reflexivity. Qed.

(** C1, amended: at any pass of the loop, a failure to obtain a token
    ends the invocation at once.  When [getToken] fails at the top of the
    pass the invocation returns "error getting token" in the state
    [getToken] left; when the refresh forced by a 401 or a 403 fails it
    returns "error refreshing token" in the state the refresh left.  No
    later pass runs. *)
Theorem token_failure_ends_the_invocation
    env n m e p rs st :
  (forall err st1,
      getToken env st = (Err err, st1) ->
      retryLoop env (S n) m e p rs st
      = (Some (ErrGettingToken err), st1))
  /\
  (forall tok st1 jd status body err st3,
      getToken env st = (Ok tok, st1) ->
      jsonMarshal env p = inr jd ->
      newRequest env m (vtexBaseURL (fst st1) ++ e) = None ->
      vtexDo env (vtexCalls (snd st1)) = HttpResponse status body ->
      status = 401 \/ status = 403 ->
      refreshToken env
        (fst st1,
         sent (mkRequest m (vtexBaseURL (fst st1) ++ e)
                         ("Bearer " ++ tok) jd) (snd st1))
      = (Err err, st3) ->
      retryLoop env (S n) m e p rs st
      = (Some (ErrRefreshingToken err), st3)).
Proof.
  split.
  - intros err st1 G.
    now rewrite retryLoop_S, (attempt_token_error _ _ _ _ _ _ _ _ G).
  - intros tok st1 jd status body err st3 G J N V S R.
    rewrite retryLoop_S, (attempt_sent _ _ _ _ _ _ _ _ _ G J N).
    cbv zeta. rewrite V.
    assert (A : (200 <=? status) && (status <? 300) = false)
      by (destruct S; subst; reflexivity).
    assert (B : (status =? 401) || (status =? 403) = true)
      by (destruct S; subst; reflexivity).
    rewrite A, B, R. reflexivity.
Qed.

Lemma token_failure_ends_the_invocation_witness :
  retryLoop
    (examples.scripted 3600
       [HttpError "connection refused"; HttpResponse 200 "T1"]
       [examples.status 200])
    (S 19) "POST" "/_v/create-user-role" examples.payload0 rs0
    (examples.client0, world0)
  = (Some (ErrGettingToken (ErrRequestingToken "connection refused")),
     (examples.client0, mkWorld 0 1 0 [examples.tokenRequest0]))
  /\
  retryLoop
    (examples.scripted 3600
       [HttpError "connection refused"; HttpResponse 200 "T1"]
       [examples.status 403; examples.status 200])
    (S 19) "POST" "/_v/create-user-role" examples.payload0 rs0
    (examples.client1, world0)
  = (Some (ErrRefreshingToken (ErrRequestingToken "connection refused")),
     (examples.client0,
      mkWorld 1 1 1 [EvRequest (examples.request0 "T0");
                     examples.tokenRequest0])).
Proof.
  split.
  - apply (proj1 (token_failure_ends_the_invocation _ _ _ _ _ _ _)).
    vm_compute. reflexivity.
  - apply (proj2 (token_failure_ends_the_invocation
                    (examples.scripted 3600
                       [HttpError "connection refused"; HttpResponse 200 "T1"]
                       [examples.status 403; examples.status 200])
                    19 "POST" "/_v/create-user-role" examples.payload0 rs0
                    (examples.client1, world0))
             "T0"%string (examples.client1, mkWorld 1 0 0 [])
             "{users}"%string 403
             ""%string);
      try (vm_compute; reflexivity).
    right. reflexivity.
Defined.

(** ** Answers that end the loop *)

(** C7: at any pass that obtains its token and sends its request, a 4xx
    answer other than 401, 403, 404 and 429 makes the invocation return
    at once the error that carries the status code and the body, and a
    2xx answer makes it return [nil]; in both cases the request of this
    pass is the last one sent. *)
Theorem other_4xx_fails_and_2xx_succeeds_at_once
    env n m e p rs st tok st1 jd status body :
  getToken env st = (Ok tok, st1) ->
  jsonMarshal env p = inr jd ->
  newRequest env m (vtexBaseURL (fst st1) ++ e) = None ->
  vtexDo env (vtexCalls (snd st1)) = HttpResponse status body ->
  let st2 := (fst st1,
              sent (mkRequest m (vtexBaseURL (fst st1) ++ e)
                              ("Bearer " ++ tok) jd) (snd st1)) in
  vtexCalls (snd st2) = S (vtexCalls (snd st))
  /\ (400 <= status < 500 ->
      status <> 401 -> status <> 403 -> status <> 404 -> status <> 429 ->
      retryLoop env (S n) m e p rs st
      = (Some (ErrRequestFailed status body), st2)
      /\ RequestError_Error (ErrRequestFailed status body)
         = ("request failed: status " ++ itoa status ++ ", body: " ++ body)%string)
  /\ (200 <= status < 300 ->
      retryLoop env (S n) m e p rs st = (None, st2)).
Proof.
  intros G J N V st2.
  pose proof (getToken_tokenOnly _ _ _ _ G) as (_ & VC & _).
  split; [cbn; now rewrite VC|].
  split.
  - intros R N1 N3 N4 N9.
    rewrite retryLoop_S, (attempt_sent _ _ _ _ _ _ _ _ _ G J N).
    cbv zeta. rewrite V.
    replace ((200 <=? status) && (status <? 300)) with false by lia.
    replace ((status =? 401) || (status =? 403)) with false by lia.
    replace ((status =? 404) || (status =? 504) || (status =? 429))
      with false by lia.
    replace (status >=? 500) with false by lia.
    split; reflexivity.
  - intros R.
    rewrite retryLoop_S, (attempt_sent _ _ _ _ _ _ _ _ _ G J N).
    cbv zeta. rewrite V.
    replace ((200 <=? status) && (status <? 300)) with true by lia.
    reflexivity.
Qed.

Lemma other_4xx_fails_and_2xx_succeeds_at_once_witness :
  (CreateUserRole
     (examples.scripted 3600 [] [HttpResponse 400 "bad request";
                                 examples.status 200])
     examples.user0 (examples.client1, world0)
   = (Some (ErrRequestFailed 400 "bad request"),
      (examples.client1,
       mkWorld 1 0 1 [EvRequest (examples.request0 "T0")]))
   /\ RequestError_Error (ErrRequestFailed 400 "bad request")
      = "request failed: status 400, body: bad request"%string)
  /\
  CreateUserRole
    (examples.scripted 3600 [] [examples.status 204])
    examples.user0 (examples.client1, world0)
  = (None,
     (examples.client1,
      mkWorld 1 0 1 [EvRequest (examples.request0 "T0")])).
Proof.
  split.
  - refine (proj1 (proj2
      (other_4xx_fails_and_2xx_succeeds_at_once
         (examples.scripted 3600 [] [HttpResponse 400 "bad request";
                                     examples.status 200])
         19 "POST" "/_v/create-user-role" examples.payload0 rs0
         (examples.client1, world0) "T0"%string
         (examples.client1, mkWorld 1 0 0 []) "{users}"%string
         400 "bad request"%string
         eq_refl eq_refl eq_refl eq_refl)) _ _ _ _ _); lia.
  - refine (proj2 (proj2
      (other_4xx_fails_and_2xx_succeeds_at_once
         (examples.scripted 3600 [] [examples.status 204])
         19 "POST" "/_v/create-user-role" examples.payload0 rs0
         (examples.client1, world0) "T0"%string
         (examples.client1, mkWorld 1 0 0 []) "{users}"%string
         204 ""%string
         eq_refl eq_refl eq_refl eq_refl)) _); lia.
Defined.

(** ** Passes made with the cached token *)

Lemma attempt_cached env m e p rs c w jd :
  token c <> ""%string ->
  clock env (ticks w) < tokenExpiry c ->
  jsonMarshal env p = inr jd ->
  newRequest env m (vtexBaseURL c ++ e) = None ->
  attempt env m e p rs (c, w) =
    let rq := mkRequest m (vtexBaseURL c ++ e) ("Bearer " ++ token c) jd in
    let w2 := sent rq (tick w) in
    match vtexDo env (vtexCalls w) with
    | HttpError _ => (Continue (backoff rs), (c, slept (currentWait rs) w2))
    | HttpResponse status body =>
        if (200 <=? status) && (status <? 300) then (Return None, (c, w2))
        else if (status =? 401) || (status =? 403) then
          let (r, st3) := refreshToken env (c, w2) in
          (match r with
           | Err err => Return (Some (ErrRefreshingToken err))
           | Ok _ => Continue rs
           end, st3)
        else if (status =? 404) || (status =? 504) || (status =? 429) then
          (Continue (backoff_widen rs), (c, slept (currentWait rs) w2))
        else if status >=? 500 then
          (Continue (backoff rs), (c, slept (currentWait rs) w2))
        else (Return (Some (ErrRequestFailed status body)), (c, w2))
    end.
Proof.
  intros T K J N.
  exact (attempt_sent env m e p rs (c, w) (token c) (c, tick w) jd
           (getToken_cached env c w T K) J N).
Qed.

Lemma backoff_rs0 : backoff rs0 = mkRetryState (150 * Millisecond) maxWait.
Proof. vm_compute. reflexivity. Qed.

(** The wait after a pass that continues, on the locals that occur. *)
Lemma Pass_wait env m e p st0 k rs st rs' st' :
  Pass env m e p st0 k rs st ->
  attempt env m e p rs st = (Continue rs', st') ->
  currentWait rs' =
    match classify (vtexDo env (vtexCalls (snd st))) with
    | AuthRejected => currentWait rs
    | _ => Z.min (currentWait rs * 3 / 2) (currentMaxWait rs)
    end
  /\ currentMaxWait rs' =
    match classify (vtexDo env (vtexCalls (snd st))) with
    | RateLimited => Z.min (currentMaxWait rs * 11 / 10) (15 * Second)
    | _ => currentMaxWait rs
    end.
Proof.
  intros P A. apply Pass_Reachable in P.
  destruct (Reachable_bounds _ P) as (_ & _ & B & W).
  apply attempt_step in A. destruct A as (_ & _ & A).
  destruct (classify (vtexDo env (vtexCalls (snd st))));
    try contradiction; destruct A as [-> _];
    rewrite ?B, ?W; split; reflexivity.
Qed.

(** C3: with a cached token that stays valid, the answers 503, 503, 200
    make the invocation return [nil] after three requests, having slept
    100 ms after the first and 150 ms after the second.  In general the
    wait starts at 100 ms and, after each pass that goes on to the next
    one, becomes the smaller of one and a half times itself (rounded
    down to the nanosecond) and the ceiling, unless the pass ended in a
    401 or 403 (the class [AuthRejected]), which leaves it as it is. *)
Theorem backoff_schedule env m e p :
  currentWait rs0 = 100 * Millisecond
  /\ (forall st0 k rs st rs' st',
        Pass env m e p st0 k rs st ->
        attempt env m e p rs st = (Continue rs', st') ->
        currentWait rs' =
          match classify (vtexDo env (vtexCalls (snd st))) with
          | AuthRejected => currentWait rs
          | _ => Z.min (currentWait rs * 3 / 2) (currentMaxWait rs)
          end)
  /\ (forall c w jd b1 b2 b3,
        token c <> ""%string ->
        (forall k, clock env k < tokenExpiry c) ->
        jsonMarshal env p = inr jd ->
        newRequest env m (vtexBaseURL c ++ e) = None ->
        vtexDo env (vtexCalls w) = HttpResponse 503 b1 ->
        vtexDo env (S (vtexCalls w)) = HttpResponse 503 b2 ->
        vtexDo env (S (S (vtexCalls w))) = HttpResponse 200 b3 ->
        let rq := mkRequest m (vtexBaseURL c ++ e)
                            ("Bearer " ++ token c) jd in
        doRequestWithRetry env m e p (c, w)
        = (None,
           (c, mkWorld (S (S (S (ticks w)))) (oktaCalls w)
                       (S (S (S (vtexCalls w))))
                       (trace w ++ [EvRequest rq; EvSleep (100 * Millisecond);
                                    EvRequest rq; EvSleep (150 * Millisecond);
                                    EvRequest rq]))))
  /\ (forall r,
        classify r = AuthRejected <->
        exists status body,
          r = HttpResponse status body /\ (status = 401 \/ status = 403)).
Proof.
  split; [reflexivity|]. split; [|split; [|exact classify_AuthRejected]].
  - intros st0 k rs st rs' st' P A.
    exact (proj1 (Pass_wait _ _ _ _ _ _ _ _ _ _ P A)).
  - intros c w jd b1 b2 b3 T K J N R1 R2 R3 rq.
    unfold doRequestWithRetry. change maxRetries with 20%nat.
    fold rs0.
    rewrite retryLoop_S, (attempt_cached _ _ _ _ _ _ _ _ T (K _) J N).
    cbv zeta. rewrite R1. cbn [Z.leb Z.ltb Z.eqb Z.geb Z.compare
      Pos.compare Pos.compare_cont Pos.eqb andb orb].
    rewrite backoff_rs0.
    rewrite retryLoop_S, (attempt_cached _ _ _ _ _ _ _ _ T (K _) J N).
    cbv zeta. cbn [vtexCalls slept log sent tick]. rewrite R2.
    cbn [Z.leb Z.ltb Z.eqb Z.geb Z.compare
      Pos.compare Pos.compare_cont Pos.eqb andb orb].
    rewrite retryLoop_S, (attempt_cached _ _ _ _ _ _ _ _ T (K _) J N).
    cbv zeta. cbn [vtexCalls slept log sent tick]. rewrite R3.
    cbn [Z.leb Z.ltb Z.eqb Z.geb Z.compare
      Pos.compare Pos.compare_cont Pos.eqb andb orb].
    unfold sent, slept, log, tick, rq. cbn [ticks oktaCalls vtexCalls trace
      currentWait rs0].
    rewrite <- !app_assoc. reflexivity.
Qed.

Lemma backoff_schedule_witness :
  CreateUserRole
    (examples.scripted 3600 []
       [examples.status 503; examples.status 503; examples.status 200])
    examples.user0 (examples.client1, world0)
  = (None,
     (examples.client1,
      mkWorld 3 0 3
        [EvRequest (examples.request0 "T0"); EvSleep 100000000;
         EvRequest (examples.request0 "T0"); EvSleep 150000000;
         EvRequest (examples.request0 "T0")])).
Proof.
  refine (proj1 (proj2 (proj2
    (backoff_schedule
       (examples.scripted 3600 []
          [examples.status 503; examples.status 503; examples.status 200])
       "POST" "/_v/create-user-role" examples.payload0)))
    examples.client1 world0 "{users}"%string ""%string ""%string ""%string
    _ _ eq_refl eq_refl eq_refl eq_refl eq_refl).
  - discriminate.
  - intros k. vm_compute. reflexivity.
Defined.

(** ** The whole loop *)

Lemma retryLoop_calls env n m e p rs st r stf :
  retryLoop env n m e p rs st = (r, stf) ->
  (vtexCalls (snd stf) <= vtexCalls (snd st) + n)%nat.
Proof.
  revert rs st. induction n as [|n IH]; intros rs st H.
  - inversion H; subst. lia.
  - rewrite retryLoop_S in H.
    destruct (attempt env m e p rs st) as [nx st'] eqn:A.
    apply attempt_step in A. destruct A as (_ & A).
    destruct nx as [err|rs'].
    + inversion H; subst. destruct A as (_ & [[V _]|[V _]]); lia.
    + destruct A as (V & _). apply IH in H. lia.
Qed.

Lemma retryLoop_sleeps env n m e p rs st r stf :
  Reachable rs ->
  retryLoop env n m e p rs st = (r, stf) ->
  exists ds,
    sleepsOf (trace (snd stf)) = sleepsOf (trace (snd st)) ++ ds
    /\ Forall (fun d => 0 < d <= 15 * Second) ds.
Proof.
  revert rs st. induction n as [|n IH]; intros rs st R H.
  - inversion H; subst. exists []. now rewrite app_nil_r.
  - rewrite retryLoop_S in H.
    destruct (attempt env m e p rs st) as [nx st'] eqn:A.
    apply attempt_step in A. destruct A as (_ & A).
    destruct (Reachable_bounds _ R) as (B1 & B2 & _).
    destruct nx as [err|rs'].
    + inversion H; subst. destruct A as (S & _).
      exists []. now rewrite app_nil_r.
    + destruct A as (_ & A).
      destruct (classify (vtexDo env (vtexCalls (snd st))));
        try contradiction; destruct A as [-> S].
      * destruct (IH _ _ R H) as (ds & E & F).
        exists ds. now rewrite E, S.
      * destruct (IH _ _ (Reach_widen _ R) H) as (ds & E & F).
        exists (currentWait rs :: ds). rewrite E, S, <- app_assoc.
        split; [reflexivity|]. constructor; [lia|assumption].
      * destruct (IH _ _ (Reach_backoff _ R) H) as (ds & E & F).
        exists (currentWait rs :: ds). rewrite E, S, <- app_assoc.
        split; [reflexivity|]. constructor; [lia|assumption].
Qed.

(** Twenty transient answers: either the loop runs dry after exactly
    that many requests, or a pass could not send its request. *)
Lemma retryLoop_transient env n m e p rs st r stf :
  (forall k, (k < n)%nat ->
             sleepy (classify (vtexDo env (vtexCalls (snd st) + k)))) ->
  retryLoop env n m e p rs st = (r, stf) ->
  (r = Some ErrMaxRetries
   /\ vtexCalls (snd stf) = (vtexCalls (snd st) + n)%nat)
  \/ (unsent r /\ (vtexCalls (snd stf) < vtexCalls (snd st) + n)%nat).
Proof.
  revert rs st. induction n as [|n IH]; intros rs st T H.
  - inversion H; subst. left. split; [reflexivity|lia].
  - rewrite retryLoop_S in H.
    destruct (attempt env m e p rs st) as [nx st'] eqn:A.
    apply attempt_step in A. destruct A as (_ & A).
    pose proof (T O ltac:(lia)) as T0. rewrite Nat.add_0_r in T0.
    destruct nx as [err|rs'].
    + inversion H; subst. destruct A as (_ & [[V U]|[V U]]).
      * right. split; [assumption|lia].
      * unfold answered in U. destruct T0 as [E | E]; rewrite E in U;
          contradiction.
    + destruct A as (V & _).
      assert (T' : forall k, (k < n)%nat ->
                sleepy (classify (vtexDo env (vtexCalls (snd st') + k)))).
      { intros k Hk. rewrite V.
        replace (S (vtexCalls (snd st)) + k)%nat
          with (vtexCalls (snd st) + S k)%nat by lia.
        apply T. lia. }
      destruct (IH _ _ T' H) as [[E C]|[U C]].
      * left. split; [assumption|lia].
      * right. split; [assumption|lia].
Qed.

(** With a cached token, [n] answers of the class [Transient] use up
    [n] passes. *)
Lemma retryLoop_cached_transient env n m e p rs c w jd :
  token c <> ""%string ->
  (forall k, clock env k < tokenExpiry c) ->
  jsonMarshal env p = inr jd ->
  newRequest env m (vtexBaseURL c ++ e) = None ->
  (forall k, (k < n)%nat ->
             classify (vtexDo env (vtexCalls w + k)) = Transient) ->
  exists wf,
    retryLoop env n m e p rs (c, w) = (Some ErrMaxRetries, (c, wf))
    /\ vtexCalls wf = (vtexCalls w + n)%nat
    /\ oktaCalls wf = oktaCalls w
    /\ sleepsOf (trace wf) = sleepsOf (trace w) ++ waits n rs.
Proof.
  intros T K J N. revert rs w.
  induction n as [|n IH]; intros rs w C.
  - exists w. cbn. rewrite app_nil_r. repeat split; lia.
  - pose proof (C O ltac:(lia)) as C0. rewrite Nat.add_0_r in C0.
    assert (A : attempt env m e p rs (c, w)
                = (Continue (backoff rs),
                   (c, slept (currentWait rs)
                         (sent (mkRequest m (vtexBaseURL c ++ e)
                                  ("Bearer " ++ token c) jd) (tick w))))).
    { rewrite (attempt_cached _ _ _ _ _ _ _ _ T (K _) J N). cbv zeta.
      unfold classify in C0.
      destruct (vtexDo env (vtexCalls w)) as [cause|status body];
        [reflexivity|].
      destruct ((200 <=? status) && (status <? 300)); [discriminate|].
      destruct ((status =? 401) || (status =? 403)); [discriminate|].
      destruct ((status =? 404) || (status =? 504) || (status =? 429));
        [discriminate|].
      destruct (status >=? 500); [reflexivity|discriminate]. }
    destruct (IH (backoff rs)
                 (slept (currentWait rs)
                    (sent (mkRequest m (vtexBaseURL c ++ e)
                             ("Bearer " ++ token c) jd) (tick w))))
      as (wf & L & V & O & S).
    { intros k Hk. cbn.
      replace (S (vtexCalls w + k))%nat with (vtexCalls w + S k)%nat by lia.
      apply C. lia. }
    exists wf. rewrite retryLoop_S, A. split; [exact L|].
    cbn in V, O, S. rewrite !sleepsOf_app in S. cbn in S.
    rewrite app_nil_r, <- app_assoc in S.
    repeat split; [lia|assumption|exact S].
Qed.

(** C4: the ceiling starts at 5 s; a pass that ends in a 404, 429 or
    504 replaces it by the smaller of 1.1 times itself (rounded down to
    the nanosecond) and 15 s, and every other pass that continues (a
    transport failure, another 5xx, a 401 or 403) leaves it as it is.
    At every pass the wait is positive and at most the ceiling, which
    lies between 5 s and 15 s; a pass sleeps at most once, for the wait
    it began with, so no sleep of an invocation exceeds 15 s.  [Pass]
    describes the passes of the loop: from any of them on, the
    invocation is the rest of the loop. *)
Theorem wait_and_ceiling env m e p st0 :
  currentMaxWait rs0 = 5 * Second
  /\ (forall r,
        classify r = RateLimited <->
        exists status body,
          r = HttpResponse status body
          /\ (status = 404 \/ status = 504 \/ status = 429))
  /\ (forall k rs st,
        Pass env m e p st0 k rs st ->
        0 < currentWait rs <= currentMaxWait rs
        /\ 5 * Second <= currentMaxWait rs <= 15 * Second
        /\ forall nx st',
             attempt env m e p rs st = (nx, st') ->
             (sleepsOf (trace (snd st')) = sleepsOf (trace (snd st))
              \/ sleepsOf (trace (snd st'))
                 = sleepsOf (trace (snd st)) ++ [currentWait rs])
             /\ forall rs',
                  nx = Continue rs' ->
                  currentMaxWait rs' =
                    match classify (vtexDo env (vtexCalls (snd st))) with
                    | RateLimited =>
                        Z.min (currentMaxWait rs * 11 / 10) (15 * Second)
                    | _ => currentMaxWait rs
                    end)
  /\ (forall r stf,
        doRequestWithRetry env m e p st0 = (r, stf) ->
        exists ds,
          sleepsOf (trace (snd stf)) = sleepsOf (trace (snd st0)) ++ ds
          /\ Forall (fun d => 0 < d <= 15 * Second) ds)
  /\ (forall k rs st,
        Pass env m e p st0 k rs st ->
        (k <= maxRetries)%nat ->
        doRequestWithRetry env m e p st0
        = retryLoop env (maxRetries - k) m e p rs st).
Proof.
  split; [reflexivity|]. split; [exact classify_RateLimited|].
  split; [|split; [|exact (Pass_adequate env m e p st0)]].
  - intros k rs st P.
    destruct (Reachable_bounds _ (Pass_Reachable _ _ _ _ _ _ _ _ P))
      as (B1 & B2 & _).
    split; [exact B1|]. split; [exact B2|].
    intros nx st' A. split.
    + apply attempt_step in A. destruct A as (_ & A).
      destruct nx as [err|rs'].
      * left. tauto.
      * destruct A as (_ & A).
        destruct (classify (vtexDo env (vtexCalls (snd st))));
          try contradiction; tauto.
    + intros rs' ->. exact (proj2 (Pass_wait _ _ _ _ _ _ _ _ _ _ P A)).
  - intros r stf H. exact (retryLoop_sleeps _ _ _ _ _ _ _ _ _ Reach_init H).
Qed.

Lemma wait_and_ceiling_witness :
  0 < currentWait (backoff_widen rs0) <= currentMaxWait (backoff_widen rs0)
  /\ 5 * Second <= currentMaxWait (backoff_widen rs0) <= 15 * Second.
Proof.
  pose (env := examples.scripted 3600 [] [examples.status 429]).
  pose (st0 := (examples.client1, world0)).
  assert (A : attempt env "POST" "/_v/create-user-role" examples.payload0
                      rs0 st0
              = (Continue (backoff_widen rs0),
                 snd (attempt env "POST" "/_v/create-user-role"
                              examples.payload0 rs0 st0)))
    by (vm_compute; reflexivity).
  pose proof (proj1 (proj2 (proj2
    (wait_and_ceiling env "POST" "/_v/create-user-role"
                      examples.payload0 st0)))
    1%nat _ _ (Pass_next _ _ _ _ _ _ _ _ _ _ (Pass_first _ _ _ _ _) A))
    as (W & C & _).
  exact (conj W C).
Defined.

Lemma waits_20 :
  waits 20 rs0 =
    [100000000; 150000000; 225000000; 337500000; 506250000; 759375000;
     1139062500; 1708593750; 2562890625; 3844335937;
     5000000000; 5000000000; 5000000000; 5000000000; 5000000000;
     5000000000; 5000000000; 5000000000; 5000000000; 5000000000].
Proof. vm_compute. reflexivity. Qed.

(** C5: an invocation never sends more than 20 requests.  If the 20
    answers it can receive are all transient (a transport failure, a
    404 or 429, a status of 500 and more) and it receives all of them,
    it returns the error "max retries (20) exceeded".  With a cached
    token that stays valid, 20 answers of the class [Transient] (a
    transport failure, a status of 500 and more other than 504) always
    lead there, from any state of the client and of the world: a second
    invocation after an exhausted one again sends exactly 20 requests
    and sleeps the same waits, beginning at 100 ms. *)
Theorem retries_exhausted env m e p st :
  RequestError_Error ErrMaxRetries = "max retries (20) exceeded"%string
  /\ (forall r,
        classify r = Transient <->
        (exists cause, r = HttpError cause)
        \/ exists status body,
             r = HttpResponse status body /\ 500 <= status /\ status <> 504)
  /\ (forall r,
        sleepy (classify r) <->
        (exists cause, r = HttpError cause)
        \/ exists status body,
             r = HttpResponse status body
             /\ (status = 404 \/ status = 429 \/ 500 <= status))
  /\ (forall r stf,
        doRequestWithRetry env m e p st = (r, stf) ->
        (vtexCalls (snd stf) <= vtexCalls (snd st) + 20)%nat)
  /\ (forall r stf,
        (forall k, (k < 20)%nat ->
           sleepy (classify (vtexDo env (vtexCalls (snd st) + k)))) ->
        doRequestWithRetry env m e p st = (r, stf) ->
        vtexCalls (snd stf) = (vtexCalls (snd st) + 20)%nat ->
        r = Some ErrMaxRetries)
  /\ (forall jd,
        token (fst st) <> ""%string ->
        (forall k, clock env k < tokenExpiry (fst st)) ->
        jsonMarshal env p = inr jd ->
        newRequest env m (vtexBaseURL (fst st) ++ e) = None ->
        (forall k, (k < 40)%nat ->
           classify (vtexDo env (vtexCalls (snd st) + k)) = Transient) ->
        exists st1 st2,
          doRequestWithRetry env m e p st = (Some ErrMaxRetries, st1)
          /\ doRequestWithRetry env m e p st1 = (Some ErrMaxRetries, st2)
          /\ vtexCalls (snd st1) = (vtexCalls (snd st) + 20)%nat
          /\ vtexCalls (snd st2) = (vtexCalls (snd st1) + 20)%nat
          /\ sleepsOf (trace (snd st1))
             = sleepsOf (trace (snd st)) ++ waits 20 rs0
          /\ sleepsOf (trace (snd st2))
             = sleepsOf (trace (snd st1)) ++ waits 20 rs0)
  /\ waits 20 rs0 =
       [100000000; 150000000; 225000000; 337500000; 506250000; 759375000;
        1139062500; 1708593750; 2562890625; 3844335937;
        5000000000; 5000000000; 5000000000; 5000000000; 5000000000;
        5000000000; 5000000000; 5000000000; 5000000000; 5000000000].
Proof.
  split; [reflexivity|]. split; [exact classify_Transient|].
  split; [exact sleepy_classify|]. split.
  { intros r stf H. exact (retryLoop_calls _ _ _ _ _ _ _ _ _ H). }
  split.
  { intros r stf T H V.
    destruct (retryLoop_transient _ _ _ _ _ _ _ _ _ T H) as [[E _]|[_ C]].
    - exact E.
    - change maxRetries with 20%nat in C. lia. }
  split; [|exact waits_20].
  intros jd T K J N C. destruct st as [c w]. cbn [fst snd] in *.
  destruct (retryLoop_cached_transient env 20 m e p rs0 c w jd T K J N)
    as (w1 & L1 & V1 & _ & S1).
  { intros k Hk. apply C. lia. }
  destruct (retryLoop_cached_transient env 20 m e p rs0 c w1 jd T K J N)
    as (w2 & L2 & V2 & _ & S2).
  { intros k Hk. rewrite V1, <- Nat.add_assoc. apply C. lia. }
  exists (c, w1), (c, w2). cbn [fst snd]. repeat split; assumption.
Qed.

Lemma retries_exhausted_witness :
  exists st1 st2,
    CreateUserRole
      (examples.scripted 3600 [] (repeat (examples.status 500) 40))
      examples.user0 (examples.client1, world0)
    = (Some ErrMaxRetries, st1)
    /\ CreateUserRole
         (examples.scripted 3600 [] (repeat (examples.status 500) 40))
         examples.user0 st1
       = (Some ErrMaxRetries, st2)
    /\ vtexCalls (snd st1) = 20%nat
    /\ vtexCalls (snd st2) = (vtexCalls (snd st1) + 20)%nat
    /\ sleepsOf (trace (snd st1)) = [] ++ waits 20 rs0
    /\ sleepsOf (trace (snd st2))
       = sleepsOf (trace (snd st1)) ++ waits 20 rs0.
Proof.
  refine (proj1 (proj2 (proj2 (proj2 (proj2 (proj2
    (retries_exhausted
       (examples.scripted 3600 [] (repeat (examples.status 500) 40))
       "POST" "/_v/create-user-role" examples.payload0
       (examples.client1, world0)))))))
    "{users}"%string _ _ eq_refl eq_refl _).
  - discriminate.
  - intros k. vm_compute. reflexivity.
  - intros k Hk. cbn [fst snd vtexCalls world0 Nat.add].
    do 40 (destruct k as [|k]; [reflexivity|]). lia.
Defined.

(** ** Forced refresh *)

Lemma getToken_empty env c w :
  token c = ""%string ->
  getToken env (c, w) =
    match newRequest env "POST" (oktaURL c) with
    | Some cause => (Err (ErrCreatingTokenRequest cause), (c, w))
    | None =>
        match oktaDo env (oktaCalls w) with
        | HttpError cause => (Err (ErrRequestingToken cause), (c, asked c env w))
        | HttpResponse status body =>
            if negb (status =? 200)
            then (Err (ErrObtainingToken status body), (c, asked c env w))
            else
              match jsonDecodeToken env body with
              | inl cause => (Err (ErrDecodingToken cause), (c, asked c env w))
              | inr tr =>
                  (Ok (AccessToken tr),
                   (stored c tr (clock env (ticks w)), tick (asked c env w)))
              end
        end
    end.
Proof.
  intros E.
  assert (U : tokenUsable env (c, w) = (false, (c, w)))
    by (rewrite tokenUsable_eq, E; reflexivity).
  exact (proj2 (getToken_renew env c w (c, w) (c, w) U U)).
Qed.

(** C6: [refreshToken] clears the cached token and its expiry and then
    fetches; a pass that ends in a 401 or 403 and continues has slept
    nothing and keeps the wait and the ceiling it began with.  With a
    cached token valid at the first pass, the answers 401, 200 and a
    token endpoint that grants a usable token give: one request with the
    old token, one request to the token endpoint, one request with the
    new token, the result [nil], and no sleep. *)
Theorem refresh_on_401 env m e p :
  (forall c w,
      refreshToken env (c, w) = getToken env (cleared c, w)
      /\ token (cleared c) = ""%string
      /\ tokenExpiry (cleared c) = zeroTime)
  /\ (forall r,
        classify r = AuthRejected <->
        exists status body,
          r = HttpResponse status body /\ (status = 401 \/ status = 403))
  /\ (forall rs st rs' st',
        attempt env m e p rs st = (Continue rs', st') ->
        classify (vtexDo env (vtexCalls (snd st))) = AuthRejected ->
        rs' = rs
        /\ sleepsOf (trace (snd st')) = sleepsOf (trace (snd st)))
  /\ (forall c w jd b1 b2 body tr,
        token c <> ""%string ->
        clock env (ticks w) < tokenExpiry c ->
        jsonMarshal env p = inr jd ->
        newRequest env m (vtexBaseURL c ++ e) = None ->
        vtexDo env (vtexCalls w) = HttpResponse 401 b1 ->
        vtexDo env (S (vtexCalls w)) = HttpResponse 200 b2 ->
        newRequest env "POST" (oktaURL c) = None ->
        oktaDo env (oktaCalls w) = HttpResponse 200 body ->
        jsonDecodeToken env body = inr tr ->
        AccessToken tr <> ""%string ->
        clock env (S (S (ticks w)))
        < clock env (S (ticks w))
          + Int64.mul (Int64.sub (ExpiresIn tr) 300) Second ->
        doRequestWithRetry env m e p (c, w)
        = (None,
           (stored c tr (clock env (S (ticks w))),
            mkWorld (S (S (S (ticks w)))) (S (oktaCalls w))
                    (S (S (vtexCalls w)))
                    (trace w ++
                     [EvRequest (mkRequest m (vtexBaseURL c ++ e)
                                   ("Bearer " ++ token c) jd);
                      EvTokenRequest (oktaURL c) (oktaClientID c)
                        (oktaSecret c)
                        (formEncode env (oktaGrantType c) (oktaScope c));
                      EvRequest (mkRequest m (vtexBaseURL c ++ e)
                                   ("Bearer " ++ AccessToken tr) jd)])))).
Proof.
  split; [intros c w; repeat split|].
  split; [exact classify_AuthRejected|]. split.
  - intros rs st rs' st' A C. apply attempt_step in A.
    destruct A as (_ & _ & A). rewrite C in A. exact A.
  - intros c w jd b1 b2 body tr T K J N R1 R2 NO O D TN KN.
    unfold doRequestWithRetry. change maxRetries with 20%nat. fold rs0.
    rewrite retryLoop_S, (attempt_cached _ _ _ _ _ _ _ _ T K J N).
    cbv zeta. rewrite R1.
    cbn [Z.leb Z.ltb Z.eqb Z.geb Z.compare
         Pos.compare Pos.compare_cont Pos.eqb andb orb].
    rewrite refreshToken_eq, getToken_empty by reflexivity.
    change (oktaURL (set_tokenExpiry (set_token c "") zeroTime))
      with (oktaURL c).
    rewrite NO. cbn [oktaCalls sent tick]. rewrite O.
    cbn [Z.eqb Pos.eqb negb]. rewrite D.
    rewrite retryLoop_S.
    rewrite (attempt_cached env m e p rs0 _ _ jd); cbn; auto.
    rewrite R2. unfold stored, sent, tick, asked, set_tokenExpiry, set_token.
    cbn. rewrite <- !app_assoc. reflexivity.
Qed.

Lemma refresh_on_401_witness :
  CreateUserRole
    (examples.scripted 3600 [HttpResponse 200 "T1"]
       [examples.status 401; examples.status 200])
    examples.user0 (examples.client1, world0)
  = (None,
     (set_tokenExpiry (set_token examples.client0 "T1") 3300000001000,
      mkWorld 3 1 2
        [EvRequest (examples.request0 "T0"); examples.tokenRequest0;
         EvRequest (examples.request0 "T1")])).
Proof.
  refine (proj2 (proj2 (proj2
    (refresh_on_401
       (examples.scripted 3600 [HttpResponse 200 "T1"]
          [examples.status 401; examples.status 200])
       "POST" "/_v/create-user-role" examples.payload0)))
    examples.client1 world0 "{users}"%string ""%string ""%string
    "T1"%string (mkOktaTokenResponse "T1" "Bearer" 3600)
    _ _ eq_refl eq_refl eq_refl eq_refl eq_refl eq_refl eq_refl _ _).
  - discriminate.
  - vm_compute. reflexivity.
  - discriminate.
  - vm_compute. reflexivity.
Defined.

(** ** The lifetime of a cached token *)

Lemma wrap_small x :
  Int64.min_int <= x <= Int64.max_int -> Int64.wrap x = x.
Proof.
  unfold Int64.wrap, Int64.min_int, Int64.max_int, Int64.modulus.
  intros H. rewrite Z.mod_small; lia.
Qed.

Lemma margin_exact E :
  -9223372036 <= E - 300 <= 9223372036 ->
  Int64.mul (Int64.sub E 300) Second = (E - 300) * Second.
Proof.
  intros H. unfold Int64.mul, Int64.sub.
  rewrite (wrap_small (E - 300))
    by (unfold Int64.min_int, Int64.max_int; lia).
  apply wrap_small. unfold Int64.min_int, Int64.max_int, Second. lia.
Qed.

(** C8, as stated, fails in two ways.  A lifetime of 9223372337 s makes
    [(E - 300) * time.Second] overflow [int64]: the expiry stored lies in
    the past and the token just fetched is not usable.  A response
    without [access_token] decodes to the empty token, which is never
    usable, whatever its expiry. *)
Lemma token_lifetime_counterexamples :
  (let env := examples.scripted 9223372337 [HttpResponse 200 "T1"] [] in
   let st := snd (getToken env (examples.client0, world0)) in
   fst (getToken env (examples.client0, world0)) = Ok "T1"%string
   /\ tokenExpiry (fst st) = 1000 - 9223372036709551616
   /\ tokenExpiry (fst st) <> 1000 + (9223372337 - 300) * Second
   /\ tokenUsable env st = (false, (fst st, tick (snd st))))
  /\
  (let env := examples.scripted 3600 [HttpResponse 200 ""] [] in
   let st := snd (getToken env (examples.client0, world0)) in
   fst (getToken env (examples.client0, world0)) = Ok ""%string
   /\ tokenExpiry (fst st) = 1000 + (3600 - 300) * Second
   /\ tokenUsable env st = (false, st)).
Proof.
  split; cbv zeta; repeat split; try (vm_compute; reflexivity).
  vm_compute. discriminate.
Qed.

(** C8, amended: when the cache is not usable and the token endpoint
    answers 200 with a body that decodes to a non-empty token of lifetime
    [E] seconds, with [(E - 300)] seconds within the range of a
    [time.Duration] (at most 9223372036 s either way), [getToken] stores
    the token with the expiry [t + (E - 300)] seconds, [t] being the
    instant read after the response.  From then on the cached token is
    usable exactly when the clock reads less than that expiry: before it,
    [getToken] returns the cached token without any request; at or after
    it, the test fails. *)
Theorem token_valid_until_margin env c w st1 st2 body tr :
  tokenUsable env (c, w) = (false, st1) ->
  tokenUsable env st1 = (false, st2) ->
  newRequest env "POST" (oktaURL c) = None ->
  oktaDo env (oktaCalls (snd st2)) = HttpResponse 200 body ->
  jsonDecodeToken env body = inr tr ->
  AccessToken tr <> ""%string ->
  -9223372036 <= ExpiresIn tr - 300 <= 9223372036 ->
  let t := clock env (ticks (snd st2)) in
  let expiry := t + (ExpiresIn tr - 300) * Second in
  exists c' w',
    getToken env (c, w) = (Ok (AccessToken tr), (c', w'))
    /\ token c' = AccessToken tr
    /\ tokenExpiry c' = expiry
    /\ forall w2,
         fst (tokenUsable env (c', w2)) = (clock env (ticks w2) <? expiry)
         /\ (clock env (ticks w2) < expiry ->
             getToken env (c', w2) = (Ok (AccessToken tr), (c', tick w2)))
         /\ (expiry <= clock env (ticks w2) ->
             tokenUsable env (c', w2) = (false, (c', tick w2))).
Proof.
  intros U1 U2 N O D T R t expiry.
  destruct (getToken_renew env c w st1 st2 U1 U2) as (F & G).
  rewrite N, O, D in G. cbn [Z.eqb Pos.eqb negb] in G. cbv zeta in G.
  exists (stored c tr (clock env (ticks (asked c env (snd st2))))),
         (tick (asked c env (snd st2))).
  split; [exact G|]. split; [reflexivity|].
  assert (X : tokenExpiry
                (stored c tr (clock env (ticks (asked c env (snd st2)))))
              = expiry).
  { unfold stored. cbn. now rewrite margin_exact. }
  split; [exact X|]. intros w2.
  assert (NE : String.eqb (AccessToken tr) "" = false)
    by now apply String.eqb_neq.
  split; [|split].
  - rewrite tokenUsable_eq. cbn [token stored set_tokenExpiry set_token].
    rewrite NE. cbn [fst]. now rewrite X.
  - intros L. rewrite <- X in L.
    exact (getToken_cached env
             (stored c tr (clock env (ticks (asked c env (snd st2)))))
             w2 T L).
  - intros L. rewrite tokenUsable_eq.
    cbn [token stored set_tokenExpiry set_token]. rewrite NE, X.
    apply Z.ltb_ge in L. now rewrite L.
Qed.

Lemma token_valid_until_margin_witness :
  exists c' w',
    getToken (examples.scripted 3600 [HttpResponse 200 "T1"] [])
             (examples.client0, world0)
    = (Ok "T1"%string, (c', w'))
    /\ token c' = "T1"%string
    /\ tokenExpiry c' = 1000 + (3600 - 300) * Second
    /\ forall w2,
         fst (tokenUsable
                (examples.scripted 3600 [HttpResponse 200 "T1"] [])
                (c', w2))
         = (1000 <? 1000 + (3600 - 300) * Second)
         /\ (1000 < 1000 + (3600 - 300) * Second ->
             getToken (examples.scripted 3600 [HttpResponse 200 "T1"] [])
                      (c', w2)
             = (Ok "T1"%string, (c', tick w2)))
         /\ (1000 + (3600 - 300) * Second <= 1000 ->
             tokenUsable
               (examples.scripted 3600 [HttpResponse 200 "T1"] [])
               (c', w2)
             = (false, (c', tick w2))).
Proof.
  refine (token_valid_until_margin
            (examples.scripted 3600 [HttpResponse 200 "T1"] [])
            examples.client0 world0
            (examples.client0, world0) (examples.client0, world0)
            "T1"%string (mkOktaTokenResponse "T1" "Bearer" 3600)
            eq_refl eq_refl eq_refl eq_refl eq_refl _ _).
  - discriminate.
  - vm_compute. split; discriminate.
Defined.

(** ** The resource identifier *)

Import strings provider stringsFacts providerFacts.

(** C2, as stated, fails: ["a:b:c:d"] splits on [":"] into four parts
    and is imported all the same, the role name being ["c:d"]. *)
Lemma import_accepts_four_parts :
  List.length (Split "a:b:c:d" ":") = 4%nat
  /\ ImportState "a:b:c:d" (mkResponse [] None)
     = Some (mkResponse []
               (Some (mkModel (StringValue "a:b:c:d") (StringValue "a")
                              (StringValue "a") (StringValue "b")
                              (StringValue "c:d")))).
Proof. split; vm_compute; reflexivity. Qed.

(** C2, amended: [ImportState] succeeds exactly when splitting the
    identifier on [":"] yields at least three parts.  It then sets [id]
    to the identifier, [email] and [account] to the first two parts,
    [role_name] to all that follows the second colon, further colons
    included, and [name] to what precedes the first ['@'] of [email].
    With fewer than three parts it reports "Invalid Import ID" and
    leaves the state as it was. *)
Theorem import_needs_at_least_three_parts req_ID resp :
  ((3 <= List.length (Split req_ID ":"))%nat
   /\ exists email account roleName,
        req_ID = formatID email account roleName
        /\ Count email ":" = 0%nat /\ Count account ":" = 0%nat
        /\ ImportState req_ID resp
           = Some (imported req_ID email account roleName resp))
  \/
  ((List.length (Split req_ID ":") < 3)%nat
   /\ ImportState req_ID resp = Some (invalidImportID req_ID resp)
   /\ HasError (Diags (invalidImportID req_ID resp)) = true
   /\ State (invalidImportID req_ID resp) = State resp).
Proof.
  rewrite Split_length.
  destruct (Nat.le_gt_cases 2 (Count req_ID ":")) as [H|H].
  - left. split; [lia|].
    destruct (SplitN3_two_seps _ _ H) as (e & a & r & E & He & Ha & S).
    exists e, a, r. repeat split; try assumption.
    now apply ImportState_three.
  - right. split; [lia|]. split; [now apply ImportState_fewer|].
    split; [apply HasError_AddError|reflexivity].
Qed.

Lemma Create_unfold env req resp st :
  HasError (Diags resp ++ Plan_diags req) = false ->
  let data := Plan_data req in
  let diags := (Diags resp ++ Plan_diags req)%list in
  let email := ValueString (Email data) in
  let account := ValueString (Account data) in
  let roleName := ValueString (RoleName data) in
  let named := String.eqb (ValueString (Name data)) "" in
  let name := if named then beforeFirst "@" email
              else ValueString (Name data) in
  Create env req resp st =
    (let (err, st') :=
       CreateUserRole env (mkUserRole email name account roleName) st in
     (Some match err with
           | Some err =>
               mkResponse
                 (AddError diags "Error Creating VTEX User Role"
                    ("Could not create user role, unexpected error: "
                     ++ RequestError_Error err))
                 (State resp)
           | None =>
               mkResponse diags
                 (Some (mkModel
                          (StringValue (formatID email account roleName))
                          (Email data)
                          (if named then StringValue name else Name data)
                          (Account data) (RoleName data)))
           end, st')).
Proof.
  intros H. cbv zeta. unfold Create. rewrite H.
  destruct (String.eqb (ValueString (Name (Plan_data req))) "").
  - destruct (Split_head (ValueString (Email (Plan_data req))) "@")
      as [rest ->].
    cbn [index0 ID Email Name Account RoleName]. unfold bind.
    destruct (CreateUserRole env _ st) as [[err|] st']; reflexivity.
  - unfold bind.
    destruct (CreateUserRole env _ st) as [[err|] st']; reflexivity.
Qed.

(** C9: when [Create] completes without an error diagnostic, the state
    it saves has the identifier [email:account:role_name]; and if
    neither [email] nor [account] holds a colon, [ImportState] on that
    identifier sets [id] to it, [email], [account] and [role_name] to
    the three fields, and [name] to what precedes the first ['@'] of
    [email]. *)
Theorem identifier_round_trip
    env req resp st resp' st' email account roleName :
  Create env req resp st = (Some resp', st') ->
  HasError (Diags resp') = false ->
  ValueString (Email (Plan_data req)) = email ->
  ValueString (Account (Plan_data req)) = account ->
  ValueString (RoleName (Plan_data req)) = roleName ->
  Count email ":" = 0%nat ->
  Count account ":" = 0%nat ->
  formatID email account roleName
  = (email ++ ":" ++ account ++ ":" ++ roleName)%string
  /\ (exists m,
        State resp' = Some m
        /\ ID m = StringValue (formatID email account roleName)
        /\ Email m = Email (Plan_data req)
        /\ Account m = Account (Plan_data req)
        /\ RoleName m = RoleName (Plan_data req))
  /\ forall resp0,
       ImportState (formatID email account roleName) resp0
       = Some (mkResponse (Diags resp0)
                 (Some (mkModel
                          (StringValue (formatID email account roleName))
                          (StringValue email)
                          (StringValue (beforeFirst "@" email))
                          (StringValue account) (StringValue roleName)))).
Proof.
  intros C E He Ha Hr Ce Ca. split; [reflexivity|]. split.
  - destruct (HasError (Diags resp ++ Plan_diags req)) eqn:D.
    + unfold Create in C. rewrite D in C. inversion C; subst resp'.
      cbn [Diags] in E. congruence.
    + rewrite (Create_unfold _ _ _ _ D) in C. cbv zeta in C.
      destruct (CreateUserRole env _ st) as [[err|] st1];
        inversion C; subst resp'.
      * cbn [Diags] in E. rewrite HasError_AddError in E. discriminate.
      * eexists. split; [reflexivity|]. cbn. subst. repeat split.
  - intros resp0. apply ImportState_three.
    now apply SplitN3_formatted.
Qed.

Lemma identifier_round_trip_witness :
  formatID "a@b.com" "vendor" "Owner" = "a@b.com:vendor:Owner"%string
  /\ (exists m,
        State (mkResponse []
                 (Some (mkModel (StringValue "a@b.com:vendor:Owner")
                                (StringValue "a@b.com") (StringValue "a")
                                (StringValue "vendor") (StringValue "Owner"))))
        = Some m
        /\ ID m = StringValue (formatID "a@b.com" "vendor" "Owner")
        /\ Email m = StringValue "a@b.com"
        /\ Account m = StringValue "vendor"
        /\ RoleName m = StringValue "Owner")
  /\ forall resp0,
       ImportState (formatID "a@b.com" "vendor" "Owner") resp0
       = Some (mkResponse (Diags resp0)
                 (Some (mkModel (StringValue "a@b.com:vendor:Owner")
                                (StringValue "a@b.com") (StringValue "a")
                                (StringValue "vendor")
                                (StringValue "Owner")))).
Proof.
  exact (identifier_round_trip
           (examples.scripted 3600 [] [examples.status 200])
           (mkCreateRequest []
              (mkModel StringUnknown (StringValue "a@b.com") StringUnknown
                       (StringValue "vendor") (StringValue "Owner")))
           (mkResponse [] None) (examples.client1, world0)
           (mkResponse []
              (Some (mkModel (StringValue "a@b.com:vendor:Owner")
                             (StringValue "a@b.com") (StringValue "a")
                             (StringValue "vendor") (StringValue "Owner"))))
           (examples.client1,
            mkWorld 1 0 1 [EvRequest (examples.request0 "T0")])
           "a@b.com"%string "vendor"%string "Owner"%string
           eq_refl eq_refl eq_refl eq_refl eq_refl eq_refl eq_refl).
Defined.

(** C10: when the plan carries no name (null, unknown or empty),
    [Create] never panics: it sends the user to VTEX under the name that
    stands before the first ['@'] of the email, the whole email when it
    holds no ['@'], and saves that name when the call succeeds.
    [ImportState] never panics either and, when the identifier has its
    three parts, sets [name] in the same way from the email part. *)
Theorem default_name_from_email env req resp st :
  HasError (Diags resp ++ Plan_diags req) = false ->
  ValueString (Name (Plan_data req)) = ""%string ->
  let data := Plan_data req in
  let diags := (Diags resp ++ Plan_diags req)%list in
  let email := ValueString (Email data) in
  let account := ValueString (Account data) in
  let roleName := ValueString (RoleName data) in
  let name := beforeFirst "@" email in
  (Count email "@" = 0%nat -> name = email)
  /\ (forall l r,
        email = (l ++ String "@" r)%string -> Count l "@" = 0%nat ->
        name = l)
  /\ Create env req resp st =
       (let (err, st') :=
          CreateUserRole env (mkUserRole email name account roleName) st in
        (Some match err with
              | Some err =>
                  mkResponse
                    (AddError diags "Error Creating VTEX User Role"
                       ("Could not create user role, unexpected error: "
                        ++ RequestError_Error err))
                    (State resp)
              | None =>
                  mkResponse diags
                    (Some (mkModel
                             (StringValue (formatID email account roleName))
                             (Email data) (StringValue name)
                             (Account data) (RoleName data)))
              end, st'))
  /\ (forall req_ID resp0,
        exists r,
          ImportState req_ID resp0 = Some r
          /\ forall e a ro,
               SplitN req_ID ":" 3 = [e; a; ro] ->
               r = mkResponse (Diags resp0)
                     (Some (mkModel (StringValue req_ID) (StringValue e)
                                    (StringValue (beforeFirst "@" e))
                                    (StringValue a) (StringValue ro)))).
Proof.
  intros D N data diags email account roleName name.
  split; [apply beforeFirst_absent|].
  split; [intros l r -> C; now apply beforeFirst_app|].
  split.
  - pose proof (Create_unfold env req resp st D) as U. cbv zeta in U.
    rewrite N in U. exact U.
  - intros req_ID resp0.
    destruct (import_cases req_ID resp0) as [(e & a & ro & S & I)|(S & I)].
    + eexists. split; [exact I|]. intros e' a' ro' S'.
      rewrite S in S'. inversion S'; subst. reflexivity.
    + eexists. split; [exact I|]. intros e' a' ro' S'.
      pose proof (SplitN3_length req_ID ":") as L. rewrite S' in L.
      cbn [List.length] in L. lia.
Qed.

Lemma default_name_from_email_witness :
  fst (Create (examples.scripted 3600 [] [examples.status 200])
         (mkCreateRequest []
            (mkModel StringUnknown (StringValue "root") StringUnknown
                     (StringValue "vendor") (StringValue "Owner")))
         (mkResponse [] None) (examples.client1, world0))
  = Some (mkResponse []
            (Some (mkModel (StringValue "root:vendor:Owner")
                           (StringValue "root") (StringValue "root")
                           (StringValue "vendor") (StringValue "Owner")))).
Proof.
  rewrite (proj1 (proj2 (proj2
    (default_name_from_email
       (examples.scripted 3600 [] [examples.status 200])
       (mkCreateRequest []
          (mkModel StringUnknown (StringValue "root") StringUnknown
                   (StringValue "vendor") (StringValue "Owner")))
       (mkResponse [] None) (examples.client1, world0)
       eq_refl eq_refl)))).
  vm_compute. reflexivity.
Defined.

(** * Further properties of the client *)

(** ** Obtaining a token *)

(** The three ways [getToken] can end. *)
Lemma getToken_cases env c w r st' :
  getToken env (c, w) = (r, st') ->
  let asking :=
    EvTokenRequest (oktaURL c) (oktaClientID c) (oktaSecret c)
                   (formEncode env (oktaGrantType c) (oktaScope c)) in
  (r = Ok (token c) /\ token c <> ""%string /\ fst st' = c
   /\ oktaCalls (snd st') = oktaCalls w /\ trace (snd st') = trace w)
  \/ (exists err, r = Err err /\ fst st' = c
      /\ ((oktaCalls (snd st') = oktaCalls w /\ trace (snd st') = trace w)
          \/ (oktaCalls (snd st') = S (oktaCalls w)
              /\ trace (snd st') = trace w ++ [asking])))
  \/ (exists body tr now,
        oktaDo env (oktaCalls w) = HttpResponse 200 body
        /\ jsonDecodeToken env body = inr tr
        /\ r = Ok (AccessToken tr) /\ fst st' = stored c tr now
        /\ oktaCalls (snd st') = S (oktaCalls w)
        /\ trace (snd st') = trace w ++ [asking]).
Proof.
  intros H asking.
  assert (RENEW : forall w2,
            oktaCalls w2 = oktaCalls w -> trace w2 = trace w ->
            getToken env (c, w) =
              match newRequest env "POST" (oktaURL c) with
              | Some cause => (Err (ErrCreatingTokenRequest cause), (c, w2))
              | None =>
                  let w3 := asked c env w2 in
                  match oktaDo env (oktaCalls w2) with
                  | HttpError cause => (Err (ErrRequestingToken cause), (c, w3))
                  | HttpResponse status body =>
                      if negb (status =? 200)
                      then (Err (ErrObtainingToken status body), (c, w3))
                      else
                        match jsonDecodeToken env body with
                        | inl cause => (Err (ErrDecodingToken cause), (c, w3))
                        | inr tr =>
                            (Ok (AccessToken tr),
                             (stored c tr (clock env (ticks w3)), tick w3))
                        end
                  end
              end ->
            (exists err, r = Err err /\ fst st' = c
               /\ ((oktaCalls (snd st') = oktaCalls w
                    /\ trace (snd st') = trace w)
                   \/ (oktaCalls (snd st') = S (oktaCalls w)
                       /\ trace (snd st') = trace w ++ [asking])))
            \/ (exists body tr now,
                  oktaDo env (oktaCalls w) = HttpResponse 200 body
                  /\ jsonDecodeToken env body = inr tr
                  /\ r = Ok (AccessToken tr) /\ fst st' = stored c tr now
                  /\ oktaCalls (snd st') = S (oktaCalls w)
                  /\ trace (snd st') = trace w ++ [asking])).
  { intros w2 WO WT G. rewrite G in H. clear G.
    destruct (newRequest env "POST" (oktaURL c)).
    { inversion H; subst. left. eexists. cbn. auto. }
    cbv zeta in H. rewrite WO in H.
    destruct (oktaDo env (oktaCalls w)) as [cause|status body] eqn:O.
    { inversion H; subst. left. eexists. cbn. rewrite WO, WT. auto. }
    destruct (Z.eqb_spec status 200) as [->|NE]; cbn [negb] in H.
    2:{ inversion H; subst. left. eexists. cbn. rewrite WO, WT. auto. }
    destruct (jsonDecodeToken env body) as [cause|tr] eqn:D.
    { inversion H; subst. left. eexists. cbn. rewrite WO, WT. auto. }
    inversion H; subst. right.
    exists body, tr, (clock env (ticks (asked c env w2))). cbn.
    rewrite WO, WT. auto 10. }
  destruct (String.eqb_spec (token c) "") as [E|NE].
  - right. apply (RENEW w); auto.
    assert (U : tokenUsable env (c, w) = (false, (c, w))).
    { rewrite tokenUsable_eq, E. reflexivity. }
    exact (proj2 (getToken_renew env c w _ _ U U)).
  - pose proof NE as NB. apply String.eqb_neq in NB.
    destruct (clock env (ticks w) <? tokenExpiry c) eqn:K1.
    + left. apply Z.ltb_lt in K1.
      rewrite (getToken_cached env c w NE K1) in H.
      inversion H; subst. cbn. auto.
    + assert (U1 : tokenUsable env (c, w) = (false, (c, tick w))).
      { rewrite tokenUsable_eq, NB, K1. reflexivity. }
      destruct (clock env (ticks (tick w)) <? tokenExpiry c) eqn:K2.
      * left. unfold getToken, bind at 1 in H. rewrite U1 in H.
        unfold bind at 1 in H. rewrite tokenUsable_eq, NB, K2 in H.
        run_m_in H. inversion H; subst. cbn. auto.
      * right. apply (RENEW (tick (tick w))); auto.
        assert (U2 : tokenUsable env (c, tick w)
                     = (false, (c, tick (tick w)))).
        { rewrite tokenUsable_eq, NB, K2. reflexivity. }
        exact (proj2 (getToken_renew env c w _ _ U1 U2)).
Qed.

(** X1: a failed [getToken] leaves the client as it was, cached token
    and expiry included; it has sent at most one request to the token
    endpoint, none to VTEX, and has not slept. *)
Theorem getToken_failure_keeps_the_cache env st err st' :
  getToken env st = (Err err, st') ->
  fst st' = fst st
  /\ (oktaCalls (snd st') <= S (oktaCalls (snd st)))%nat
  /\ vtexCalls (snd st') = vtexCalls (snd st)
  /\ sleepsOf (trace (snd st')) = sleepsOf (trace (snd st)).
Proof.
  intros H. destruct st as [c w].
  pose proof (getToken_tokenOnly _ _ _ _ H) as F.
  pose proof (tokenOnly_sleeps _ _ F) as S. destruct F as (_ & V & _).
  destruct (getToken_cases _ _ _ _ _ H)
    as [(E & _)|[(e & _ & C & O)|(b & tr & now & _ & _ & E & _)]];
    try discriminate.
  cbn [fst snd] in *. repeat split; auto.
  destruct O as [[O _]|[O _]]; lia.
Qed.

Lemma getToken_failure_keeps_the_cache_witness :
  fst (snd (getToken (examples.scripted 3600 [examples.status 503] [])
                     (set_tokenExpiry examples.client1 0, world0)))
  = set_tokenExpiry examples.client1 0.
Proof.
  exact (proj1 (getToken_failure_keeps_the_cache
                  (examples.scripted 3600 [examples.status 503] [])
                  (set_tokenExpiry examples.client1 0, world0)
                  (ErrObtainingToken 503 "")
                  (set_tokenExpiry examples.client1 0,
                   mkWorld 2 1 0 [examples.tokenRequest0])
                  eq_refl)).
Defined.



Lemma refreshToken_asks env c w r st' :
  refreshToken env (c, w) = (r, st') ->
  newRequest env "POST" (oktaURL c) = None ->
  oktaCalls (snd st') = S (oktaCalls w)
  /\ (forall err, r = Err err -> fst st' = cleared c)
  /\ (forall tok,
        r = Ok tok ->
        exists body tr now,
          oktaDo env (oktaCalls w) = HttpResponse 200 body
          /\ jsonDecodeToken env body = inr tr
          /\ tok = AccessToken tr
          /\ fst st' = stored c tr now).
Proof.
  intros H N. rewrite refreshToken_eq in H.
  destruct (getToken_cases _ _ _ _ _ H)
    as [(_ & T & _)
       |[(e & E & F & [[O T]|[O T]])|(b & tr & now & O & D & E & F & K & _)]].
  - cbn in T. congruence.
  - exfalso. rewrite getToken_empty in H by reflexivity.
    change (oktaURL (set_tokenExpiry (set_token c "") zeroTime))
      with (oktaURL c) in H. rewrite N in H.
    destruct (oktaDo env (oktaCalls w)) as [cause|status body].
    + inversion H; subst. cbn in O. lia.
    + destruct (negb (status =? 200)).
      * inversion H; subst. cbn in O. lia.
      * destruct (jsonDecodeToken env body); inversion H; subst;
          cbn in O; lia.
  - split; [exact O|]. split; [intros err _; exact F|].
    intros tok K. congruence.
  - split; [exact K|]. split; [intros err K'; congruence|].
    intros tok K'. exists b, tr, now. repeat split; auto; congruence.
Qed.





(** ** What an invocation sends *)

Lemma expectedEvent_config env c c' m e p ev :
  sameConfig c c' ->
  expectedEvent env c' m e p ev -> expectedEvent env c m e p ev.
Proof.
  intros (B & U & I & S & G & K). destruct ev; cbn; [|rewrite B|]; auto.
  rewrite U, I, S, G, K. auto.
Qed.

Lemma getToken_events env st r st' m e p :
  getToken env st = (r, st') ->
  exists evs,
    trace (snd st') = trace (snd st) ++ evs
    /\ Forall (expectedEvent env (fst st) m e p) evs.
Proof.
  destruct st as [c w]. intros H. cbn [fst snd].
  assert (A : expectedEvent env c m e p
                (EvTokenRequest (oktaURL c) (oktaClientID c) (oktaSecret c)
                   (formEncode env (oktaGrantType c) (oktaScope c))))
    by (cbn; auto).
  destruct (getToken_cases _ _ _ _ _ H)
    as [(_ & _ & _ & _ & T)
       |[(err & _ & _ & [[_ T]|[_ T]])|(b & tr & now & _ & _ & _ & _ & _ & T)]].
  - exists []. rewrite app_nil_r. auto.
  - exists []. rewrite app_nil_r. auto.
  - eexists. split; [exact T|]. auto.
  - eexists. split; [exact T|]. auto.
Qed.

Lemma attempt_events env m e p rs st nx st' :
  Reachable rs ->
  attempt env m e p rs st = (nx, st') ->
  exists evs,
    trace (snd st') = trace (snd st) ++ evs
    /\ Forall (expectedEvent env (fst st) m e p) evs.
Proof.
  intros R A.
  destruct (Reachable_bounds _ R) as (B1 & B2 & _).
  assert (SL : expectedEvent env (fst st) m e p (EvSleep (currentWait rs)))
    by (cbn [expectedEvent]; lia).
  destruct (getToken env st) as [[tok|err] st1] eqn:G.
  2:{ rewrite (attempt_token_error _ _ _ _ _ _ _ _ G) in A.
      inversion A; subst. exact (getToken_events _ _ _ _ m e p G). }
  destruct (getToken_events _ _ _ _ m e p G) as (evs1 & T1 & F1).
  pose proof (getToken_tokenOnly _ _ _ _ G) as (C & _).
  destruct (jsonMarshal env p) as [cause|jd] eqn:J.
  { unfold attempt, bind at 1 in A. rewrite G, J in A.
    inversion A; subst. eauto. }
  destruct (newRequest env m (vtexBaseURL (fst st1) ++ e)) as [cause|] eqn:N.
  { unfold attempt, bind at 1 in A. rewrite G, J in A. run_m_in A.
    rewrite N in A. inversion A; subst. eauto. }
  rewrite (attempt_sent _ _ _ _ _ _ _ _ _ G J N) in A. cbv zeta in A.
  assert (RQ : expectedEvent env (fst st) m e p
                 (EvRequest (mkRequest m (vtexBaseURL (fst st1) ++ e)
                               ("Bearer " ++ tok) jd))).
  { cbn [expectedEvent req_method req_url req_body req_authorization].
    destruct C as (-> & _). eauto. }
  assert (ONE : forall w2,
            trace w2 = trace (snd st1) ++
                       [EvRequest (mkRequest m (vtexBaseURL (fst st1) ++ e)
                                     ("Bearer " ++ tok) jd)] ->
            exists evs, trace w2 = trace (snd st) ++ evs
                        /\ Forall (expectedEvent env (fst st) m e p) evs).
  { intros w2 ->. rewrite T1, <- app_assoc. eexists. split; [reflexivity|].
    apply Forall_app. auto. }
  assert (TWO : forall w2,
            trace w2 = (trace (snd st1) ++
                        [EvRequest (mkRequest m (vtexBaseURL (fst st1) ++ e)
                                      ("Bearer " ++ tok) jd)])
                       ++ [EvSleep (currentWait rs)] ->
            exists evs, trace w2 = trace (snd st) ++ evs
                        /\ Forall (expectedEvent env (fst st) m e p) evs).
  { intros w2 ->. rewrite T1, <- !app_assoc. eexists.
    split; [reflexivity|]. apply Forall_app. split; [exact F1|].
    cbn [app]. constructor; [exact RQ|]. constructor; [exact SL|].
    constructor. }
  destruct (vtexDo env (vtexCalls (snd st1))) as [cause|status body].
  { inversion A; subst. apply TWO. reflexivity. }
  destruct ((200 <=? status) && (status <? 300)).
  { inversion A; subst. apply ONE. reflexivity. }
  destruct ((status =? 401) || (status =? 403)).
  { destruct (refreshToken env _) as [r st3] eqn:RF.
    assert (st' = st3) by (destruct r; inversion A; reflexivity). subst st3.
    rewrite refreshToken_eq in RF.
    destruct (getToken_events _ _ _ _ m e p RF) as (evs3 & T3 & F3).
    cbn [fst snd] in T3, F3. rewrite T3. unfold sent. cbn [trace].
    rewrite T1, <- !app_assoc. eexists. split; [reflexivity|].
    apply Forall_app. split; [exact F1|]. constructor; [exact RQ|].
    eapply Forall_impl; [|exact F3]. intros ev.
    apply expectedEvent_config.
    eapply sameConfig_trans; [exact C|]. unfold sameConfig, set_tokenExpiry, set_token.
    cbn [vtexBaseURL oktaURL oktaClientID oktaSecret oktaGrantType oktaScope]. tauto. }
  destruct ((status =? 404) || (status =? 504) || (status =? 429)).
  { inversion A; subst. apply TWO. reflexivity. }
  destruct (status >=? 500).
  { inversion A; subst. apply TWO. reflexivity. }
  inversion A; subst. apply ONE. reflexivity.
Qed.

Lemma retryLoop_events env n m e p rs st r stf :
  Reachable rs ->
  retryLoop env n m e p rs st = (r, stf) ->
  sameConfig (fst st) (fst stf)
  /\ exists evs,
       trace (snd stf) = trace (snd st) ++ evs
       /\ Forall (expectedEvent env (fst st) m e p) evs.
Proof.
  revert rs st. induction n as [|n IH]; intros rs st R H.
  - inversion H; subst. split; [apply sameConfig_refl|].
    exists []. rewrite app_nil_r. auto.
  - rewrite retryLoop_S in H.
    destruct (attempt env m e p rs st) as [nx st1] eqn:A.
    destruct (attempt_events _ _ _ _ _ _ _ _ R A) as (evs1 & T1 & F1).
    pose proof (attempt_step _ _ _ _ _ _ _ _ A) as (C & K).
    destruct nx as [err|rs'].
    + inversion H; subst. eauto.
    + assert (R' : Reachable rs').
      { destruct K as (_ & K).
        destruct (classify (vtexDo env (vtexCalls (snd st))));
          try contradiction; destruct K as [-> _];
          auto using Reach_backoff, Reach_widen. }
      destruct (IH _ _ R' H) as (C2 & evs2 & T2 & F2).
      split; [eapply sameConfig_trans; eauto|].
      exists (evs1 ++ evs2). rewrite T2, T1, app_assoc.
      split; [reflexivity|]. apply Forall_app. split; [exact F1|].
      eapply Forall_impl; [|exact F2]. intros ev.
      now apply expectedEvent_config.
Qed.

(** X4: an invocation only adds to the log of effects, and adds only:
    requests to the token endpoint with the client's own URL, client id,
    secret, grant type and scope; requests with the given method to the
    base URL followed by the endpoint, carrying the marshalled payload
    and a bearer token; sleeps of more than 0 and at most 15 s.  The
    client's configuration is never changed.  [CreateUserRole] and
    [DeleteUserRole] therefore only ever post the one user to
    [/_v/create-user-role] and to [/_v/remove-user-role]. *)
Theorem invocation_effects env st :
  (forall m e p,
      sameConfig (fst st) (fst (snd (doRequestWithRetry env m e p st)))
      /\ exists evs,
           trace (snd (snd (doRequestWithRetry env m e p st)))
           = trace (snd st) ++ evs
           /\ Forall (expectedEvent env (fst st) m e p) evs)
  /\ (forall user,
        exists evs,
          trace (snd (snd (CreateUserRole env user st)))
          = trace (snd st) ++ evs
          /\ Forall (expectedEvent env (fst st) "POST" "/_v/create-user-role"
                       (mkUserRoleRequest [user])) evs)
  /\ (forall user,
        exists evs,
          trace (snd (snd (DeleteUserRole env user st)))
          = trace (snd st) ++ evs
          /\ Forall (expectedEvent env (fst st) "POST" "/_v/remove-user-role"
                       (mkUserRoleRequest [user])) evs).
Proof.
  assert (G : forall m e p,
      sameConfig (fst st) (fst (snd (doRequestWithRetry env m e p st)))
      /\ exists evs,
           trace (snd (snd (doRequestWithRetry env m e p st)))
           = trace (snd st) ++ evs
           /\ Forall (expectedEvent env (fst st) m e p) evs).
  { intros m e p.
    destruct (doRequestWithRetry env m e p st) as [r stf] eqn:H.
    cbn [fst snd]. unfold doRequestWithRetry in H.
    exact (retryLoop_events env maxRetries m e p rs0 st r stf Reach_init H). }
  split; [exact G|].
  split; intros user.
  - exact (proj2 (G "POST"%string "/_v/create-user-role"%string
                    (mkUserRoleRequest [user]))).
  - exact (proj2 (G "POST"%string "/_v/remove-user-role"%string
                    (mkUserRoleRequest [user]))).
Qed.


(** ** What the result of an invocation tells *)

Lemma classify_Success r :
  classify r = Success <->
  exists status body, r = HttpResponse status body /\ 200 <= status < 300.
Proof.
  split.
  - destruct r as [cause|status body]; [discriminate|]. unfold classify.
    destruct ((200 <=? status) && (status <? 300)) eqn:E.
    + intros _. exists status, body. split; [reflexivity|]. lia.
    + destruct ((status =? 401) || (status =? 403)); [discriminate|].
      destruct ((status =? 404) || (status =? 504) || (status =? 429));
        [discriminate|].
      destruct (status >=? 500); discriminate.
  - intros (status & body & -> & H). unfold classify.
    replace ((200 <=? status) && (status <? 300)) with true by lia.
    reflexivity.
Qed.

Lemma retryLoop_result env n m e p rs st r stf :
  retryLoop env n m e p rs st = (r, stf) ->
  resultMeans env (vtexCalls (snd st)) (vtexCalls (snd stf)) n r.
Proof.
  revert rs st. induction n as [|n IH]; intros rs st H.
  - inversion H; subst. cbn. lia.
  - rewrite retryLoop_S in H.
    destruct (attempt env m e p rs st) as [nx st1] eqn:A.
    apply attempt_step in A. destruct A as (_ & A).
    destruct nx as [err|rs'].
    + inversion H; subst. destruct A as (_ & [[V U]|[V U]]).
      * destruct r as [[]|]; cbn in U; try contradiction; cbn; lia.
      * unfold answered in U.
        destruct (classify (vtexDo env (vtexCalls (snd st)))) eqn:C;
          try contradiction.
        -- subst r. apply classify_Success in C.
           destruct C as (s & b & C & R). cbn.
           exists (vtexCalls (snd st)), s, b. auto.
        -- destruct r as [[]|]; try contradiction.
           apply classify_AuthRejected in C.
           destruct C as (s & b & C & R). cbn.
           exists (vtexCalls (snd st)), s, b. auto.
        -- destruct (vtexDo env (vtexCalls (snd st))) as [|s b] eqn:D;
             [contradiction|]. subst r. cbn.
           exists (vtexCalls (snd st)). rewrite D. auto.
    + destruct A as (V & _). apply IH in H. rewrite V in H.
      unfold resultMeans in *.
      destruct r as [[]|].
      * lia.
      * lia.
      * lia.
      * destruct H as (k & s & b & L & H). exists k, s, b.
        split; [lia|exact H].
      * destruct H as (k & L & H). exists k. split; [lia|exact H].
      * lia.
      * destruct H as (k & s & b & L & H). exists k, s, b.
        split; [lia|exact H].
Qed.

(** X5: what the result of an invocation tells the caller.  [nil] is
    returned only when the last answer received was a 2xx; "request
    failed" carries the status and body of the last answer, which was
    neither a success nor retried; "error refreshing token" follows a
    401 or 403; "max retries exceeded" means that exactly 20 requests
    were sent; and the three errors that precede the sending of a
    request mean that fewer than 20 were sent. *)
Theorem result_tells_what_happened env m e p st :
  resultMeans env (vtexCalls (snd st))
    (vtexCalls (snd (snd (doRequestWithRetry env m e p st))))
    20 (fst (doRequestWithRetry env m e p st)).
Proof.
  destruct (doRequestWithRetry env m e p st) as [r stf] eqn:H.
  cbn [fst snd]. unfold doRequestWithRetry in H.
  exact (retryLoop_result env maxRetries m e p rs0 st r stf H).
Qed.

(** ** How long an invocation sleeps *)

Lemma retryLoop_waits env n m e p rs st r stf :
  Reachable rs ->
  retryLoop env n m e p rs st = (r, stf) ->
  exists ds,
    sleepsOf (trace (snd stf)) = sleepsOf (trace (snd st)) ++ ds
    /\ (List.length ds + vtexCalls (snd st) <= vtexCalls (snd stf))%nat
    /\ Forall (fun d => currentWait rs <= d <= 15 * Second) ds
    /\ StronglySorted Z.le ds.
Proof.
  revert rs st. induction n as [|n IH]; intros rs st R H.
  - inversion H; subst. exists []. rewrite app_nil_r.
    repeat split; [cbn; lia|constructor|constructor].
  - rewrite retryLoop_S in H.
    destruct (attempt env m e p rs st) as [nx st1] eqn:A.
    apply attempt_step in A. destruct A as (_ & A).
    destruct (Reachable_bounds _ R) as (B1 & B2 & BB & BW).
    destruct nx as [err|rs'].
    + inversion H; subst. destruct A as (S & V).
      exists []. rewrite app_nil_r.
      repeat split; [assumption| |constructor|constructor].
      cbn [List.length]. destruct V as [[V _]|[V _]]; lia.
    + destruct A as (V & A).
      assert (GROW : forall rs2,
                rs2 = backoff rs \/ rs2 = backoff_widen rs ->
                currentWait rs <= currentWait rs2).
      { intros rs2 [-> | ->]; [rewrite BB|rewrite BW];
          cbn [currentWait]; apply Z.min_glb;
          first [apply Z.div_le_lower_bound; lia | lia]. }
      destruct (classify (vtexDo env (vtexCalls (snd st))));
        try contradiction; destruct A as [-> S].
      * destruct (IH _ _ R H) as (ds & E & L & F & SS).
        exists ds. rewrite E, S. repeat split; auto. lia.
      * destruct (IH _ _ (Reach_widen _ R) H) as (ds & E & L & F & SS).
        pose proof (GROW _ (or_intror eq_refl)) as G.
        assert (F' : Forall (fun d => currentWait rs <= d <= 15 * Second) ds).
        { eapply Forall_impl; [|exact F]. cbn beta. intros d. lia. }
        exists (currentWait rs :: ds). rewrite E, S, <- app_assoc.
        repeat split; [cbn [List.length]; lia| |].
        -- constructor; [lia|exact F'].
        -- constructor; [exact SS|].
           eapply Forall_impl; [|exact F']. cbn beta. intros d. lia.
      * destruct (IH _ _ (Reach_backoff _ R) H) as (ds & E & L & F & SS).
        pose proof (GROW _ (or_introl eq_refl)) as G.
        assert (F' : Forall (fun d => currentWait rs <= d <= 15 * Second) ds).
        { eapply Forall_impl; [|exact F]. cbn beta. intros d. lia. }
        exists (currentWait rs :: ds). rewrite E, S, <- app_assoc.
        repeat split; [cbn [List.length]; lia| |].
        -- constructor; [lia|exact F'].
        -- constructor; [exact SS|].
           eapply Forall_impl; [|exact F']. cbn beta. intros d. lia.
Qed.

Lemma total_bound (ds : list Duration) :
  Forall (fun d => 100 * Millisecond <= d <= 15 * Second) ds ->
  total ds <= 15 * Second * Z.of_nat (List.length ds).
Proof.
  induction 1 as [|d ds H _ IH]; cbn [total fold_right List.length];
    [lia|]. fold (total ds). lia.
Qed.

(** X6: the sleeps of one invocation.  There is at most one sleep per
    request sent, hence at most 20; each lasts between 100 ms and 15 s;
    they never get shorter from one to the next; and together they last
    at most 300 s. *)
Theorem invocation_sleeps env m e p st :
  exists ds,
    sleepsOf (trace (snd (snd (doRequestWithRetry env m e p st))))
    = sleepsOf (trace (snd st)) ++ ds
    /\ (List.length ds + vtexCalls (snd st)
        <= vtexCalls (snd (snd (doRequestWithRetry env m e p st)))
        <= vtexCalls (snd st) + 20)%nat
    /\ Forall (fun d => 100 * Millisecond <= d <= 15 * Second) ds
    /\ StronglySorted Z.le ds
    /\ total ds <= 300 * Second.
Proof.
  destruct (doRequestWithRetry env m e p st) as [r stf] eqn:H.
  cbn [fst snd]. unfold doRequestWithRetry in H.
  destruct (retryLoop_waits env maxRetries m e p rs0 st r stf Reach_init H)
    as (ds & E & L & F & SS).
  pose proof (retryLoop_calls _ _ _ _ _ _ _ _ _ H) as C.
  change maxRetries with 20%nat in C.
  exists ds. split; [exact E|]. split; [lia|]. split; [exact F|].
  split; [exact SS|].
  pose proof (total_bound ds F) as T. unfold Second in *. lia.
Qed.


(** ** A run of rejected tokens *)

Lemma getToken_granted env c w :
  grants env c ->
  exists tok st',
    getToken env (c, w) = (Ok tok, st')
    /\ (oktaCalls w <= oktaCalls (snd st'))%nat.
Proof.
  intros (N & K).
  destruct (getToken env (c, w)) as [r st'] eqn:G.
  assert (RENEW : forall st1 st2,
            tokenUsable env (c, w) = (false, st1) ->
            tokenUsable env st1 = (false, st2) ->
            exists tok, r = Ok tok).
  { intros st1 st2 U1 U2.
    destruct (getToken_renew env c w st1 st2 U1 U2) as (_ & E).
    rewrite G, N in E. cbv zeta in E.
    destruct (K (oktaCalls (snd st2))) as (body & tr & O & D).
    rewrite O, D in E. cbn [Z.eqb Pos.eqb negb] in E.
    inversion E. eauto. }
  assert (OK : exists tok, r = Ok tok).
  { destruct (getToken_cases _ _ _ _ _ G)
      as [(-> & _)|[(err & -> & _)|(b & tr & now & _ & _ & -> & _)]];
      eauto.
    exfalso.
    destruct (tokenUsable env (c, w)) as [[|] st1] eqn:U1.
    - unfold getToken, bind at 1 in G. rewrite U1 in G. run_m_in G.
      discriminate.
    - destruct (tokenUsable env st1) as [[|] st2] eqn:U2.
      + unfold getToken, bind at 1 in G. rewrite U1 in G.
        unfold bind at 1 in G. rewrite U2 in G. run_m_in G. discriminate.
      + destruct (RENEW st1 st2 eq_refl U2) as (tok & E). discriminate. }
  destruct OK as (tok & ->). exists tok, st'. split; [reflexivity|].
  destruct (getToken_cases _ _ _ _ _ G)
    as [(_ & _ & _ & O & _)
       |[(err & E & _)|(b & tr & now & _ & _ & _ & _ & O & _)]];
    [lia|discriminate|lia].
Qed.

Lemma grants_config env c c' : sameConfig c c' -> grants env c -> grants env c'.
Proof. intros (_ & U & _) (N & K). split; [now rewrite U|exact K]. Qed.

Lemma retryLoop_rejected env n m e p rs st jd :
  grants env (fst st) ->
  jsonMarshal env p = inr jd ->
  newRequest env m (vtexBaseURL (fst st) ++ e) = None ->
  (forall k, (k < n)%nat ->
             classify (vtexDo env (vtexCalls (snd st) + k)) = AuthRejected) ->
  exists stf,
    retryLoop env n m e p rs st = (Some ErrMaxRetries, stf)
    /\ vtexCalls (snd stf) = (vtexCalls (snd st) + n)%nat
    /\ (oktaCalls (snd st) + n <= oktaCalls (snd stf))%nat
    /\ sleepsOf (trace (snd stf)) = sleepsOf (trace (snd st)).
Proof.
  revert st. induction n as [|n IH]; intros st GR J N C.
  - exists st. cbn. repeat split; lia.
  - destruct st as [c w]. cbn [fst snd] in *.
    destruct (getToken_granted env c w GR) as (tok & st1 & G & O1).
    pose proof (getToken_tokenOnly _ _ _ _ G) as F1.
    pose proof (tokenOnly_sleeps _ _ F1) as S1.
    destruct F1 as (C1 & V1 & _). cbn [fst snd] in *.
    assert (N1 : newRequest env m (vtexBaseURL (fst st1) ++ e) = None)
      by (destruct C1 as (-> & _); exact N).
    pose proof (C O ltac:(lia)) as C0. rewrite Nat.add_0_r in C0.
    rewrite <- V1 in C0.
    destruct (refreshToken env
                (fst st1,
                 sent (mkRequest m (vtexBaseURL (fst st1) ++ e)
                                 ("Bearer " ++ tok) jd) (snd st1)))
      as [r st3] eqn:RF.
    assert (GR1 : grants env (fst st1)) by (eapply grants_config; eauto).
    destruct (refreshToken_asks env _ _ _ _ RF (proj1 GR1)) as (O3 & _).
    assert (ROK : exists tk, r = Ok tk).
    { rewrite refreshToken_eq in RF.
      destruct (getToken_granted env
                  (set_tokenExpiry (set_token (fst st1) "") zeroTime)
                  (sent (mkRequest m (vtexBaseURL (fst st1) ++ e)
                                   ("Bearer " ++ tok) jd) (snd st1)))
        as (tk & s & E & _).
      { eapply grants_config; [|exact GR1]. unfold sameConfig. cbn. tauto. }
      rewrite RF in E. inversion E. eauto. }
    destruct ROK as (tk & ->).
    pose proof (refreshToken_tokenOnly _ _ _ _ RF) as F3.
    pose proof (tokenOnly_sleeps _ _ F3) as S3.
    destruct F3 as (C3 & V3 & _). cbn [fst snd] in *.
    assert (A : attempt env m e p rs (c, w) = (Continue rs, st3)).
    { rewrite (attempt_sent _ _ _ _ _ _ _ _ _ G J N1). cbv zeta.
      unfold classify in C0.
      destruct (vtexDo env (vtexCalls (snd st1))) as [cause|status body];
        [discriminate|].
      destruct ((200 <=? status) && (status <? 300)); [discriminate|].
      destruct ((status =? 401) || (status =? 403)).
      - rewrite RF. reflexivity.
      - destruct ((status =? 404) || (status =? 504) || (status =? 429));
          [discriminate|].
        destruct (status >=? 500); discriminate. }
    assert (C13 : sameConfig c (fst st3))
      by (eapply sameConfig_trans; eauto).
    destruct (IH st3) as (stf & L & V & O & S).
    { eapply grants_config; eauto. }
    { exact J. }
    { destruct C13 as (-> & _). exact N. }
    { intros k Hk. rewrite V3. cbn [vtexCalls sent]. rewrite V1.
      replace (S (vtexCalls w) + k)%nat with (vtexCalls w + S k)%nat by lia.
      apply C. lia. }
    exists stf. rewrite retryLoop_S, A. split; [exact L|].
    rewrite V3 in V. cbn [vtexCalls sent] in V. rewrite V1 in V.
    cbn [oktaCalls sent] in O3.
    rewrite S3 in S. cbn [trace sent] in S.
    rewrite sleepsOf_app, S1 in S. cbn [sleepsOf] in S.
    rewrite app_nil_r in S.
    repeat split; [lia|lia|exact S].
Qed.

(** X11: rejected tokens are retried without any pause.  When the token
    endpoint grants a token whenever it is asked and the 20 answers of
    VTEX are all 401 or 403, the invocation sends its 20 requests, asks
    the token endpoint at least 20 times, never sleeps, and returns "max
    retries exceeded". *)
Theorem rejected_tokens_exhaust_without_sleeping env m e p st jd :
  grants env (fst st) ->
  jsonMarshal env p = inr jd ->
  newRequest env m (vtexBaseURL (fst st) ++ e) = None ->
  (forall k, (k < 20)%nat ->
     exists status body,
       vtexDo env (vtexCalls (snd st) + k) = HttpResponse status body
       /\ (status = 401 \/ status = 403)) ->
  exists stf,
    doRequestWithRetry env m e p st = (Some ErrMaxRetries, stf)
    /\ vtexCalls (snd stf) = (vtexCalls (snd st) + 20)%nat
    /\ (oktaCalls (snd st) + 20 <= oktaCalls (snd stf))%nat
    /\ sleepsOf (trace (snd stf)) = sleepsOf (trace (snd st)).
Proof.
  intros GR J N C.
  apply (retryLoop_rejected env maxRetries m e p rs0 st jd GR J N).
  intros k Hk. apply classify_AuthRejected. apply C. exact Hk.
Qed.

Lemma rejected_tokens_exhaust_without_sleeping_witness :
  exists stf,
    CreateUserRole
      (mkEnv (fun _ => 1000) (fun _ => HttpResponse 200 "T")
             (fun _ => HttpResponse 401 "") (fun _ _ => None)
             (fun _ => inr "{users}"%string)
             (fun b => inr (mkOktaTokenResponse b "Bearer" 3600))
             (fun g s => (g ++ s)%string))
      examples.user0 (examples.client1, world0)
    = (Some ErrMaxRetries, stf)
    /\ vtexCalls (snd stf) = 20%nat
    /\ (20 <= oktaCalls (snd stf))%nat
    /\ sleepsOf (trace (snd stf)) = [].
Proof.
  refine (rejected_tokens_exhaust_without_sleeping
            (mkEnv (fun _ => 1000) (fun _ => HttpResponse 200 "T")
                   (fun _ => HttpResponse 401 "") (fun _ _ => None)
                   (fun _ => inr "{users}"%string)
                   (fun b => inr (mkOktaTokenResponse b "Bearer" 3600))
                   (fun g s => (g ++ s)%string))
            "POST" "/_v/create-user-role" examples.payload0
            (examples.client1, world0) "{users}"%string _ eq_refl eq_refl _).
  - split; [reflexivity|]. intros k. eexists _, _. split; reflexivity.
  - intros k _. exists 401, ""%string. split; [reflexivity|]. left.
    reflexivity.
Defined.


(** * Further properties of the resource and of the provider *)

Import lifecycle.

Lemma Create_cases env req resp st :
  exists resp' st',
    Create env req resp st = (Some resp', st')
    /\ (HasError (Diags resp ++ Plan_diags req) = true ->
        st' = st /\ resp' = mkResponse (Diags resp ++ Plan_diags req)
                                       (State resp))
    /\ (HasError (Diags resp') = true -> State resp' = State resp)
    /\ (HasError (Diags resp') = false ->
        Diags resp' = (Diags resp ++ Plan_diags req)%list
        /\ exists m,
             State resp' = Some m
             /\ CreateUserRole env (userOf m) st = (None, st')
             /\ ID m = StringValue
                         (formatID (ValueString (Email m))
                                   (ValueString (Account m))
                                   (ValueString (RoleName m)))).
Proof.
  destruct (HasError (Diags resp ++ Plan_diags req)) eqn:D.
  - exists (mkResponse (Diags resp ++ Plan_diags req) (State resp)), st.
    split; [unfold Create; now rewrite D|].
    split; [auto|]. split; [reflexivity|].
    cbn [Diags]. congruence.
  - rewrite (Create_unfold env req resp st D). cbv zeta.
    destruct (CreateUserRole env _ st) as [[err|] st1] eqn:C.
    + eexists _, st1. split; [reflexivity|].
      split; [discriminate|]. split; [reflexivity|].
      cbn [Diags]. rewrite HasError_AddError. discriminate.
    + eexists _, st1. split; [reflexivity|].
      split; [discriminate|]. cbn [Diags State].
      split; [congruence|]. intros _. split; [reflexivity|].
      eexists. split; [reflexivity|].
      unfold userOf. cbn [ID Email Name Account RoleName].
      split; [|reflexivity].
      rewrite <- C. f_equal. f_equal.
      destruct (String.eqb_spec (ValueString (Name (Plan_data req))) "");
        reflexivity.
Qed.


Lemma Delete_unfold env req diags0 st :
  HasError (diags0 ++ Get_diags req) = false ->
  Delete env req diags0 st =
    (let (err, st') := DeleteUserRole env (userOf (Get_data req)) st in
     (match err with
      | Some e =>
          AddError (diags0 ++ Get_diags req) "Error Deleting VTEX User Role"
            ("Could not delete user role, unexpected error: "
             ++ RequestError_Error e)
      | None => (diags0 ++ Get_diags req)%list
      end, st')).
Proof.
  intros H. unfold Delete. rewrite H. unfold bind, userOf.
  destruct (DeleteUserRole env _ st) as [[e|] st']; reflexivity.
Qed.

(** X8: [Delete] undoes [Create].  Given the state a successful [Create]
    saved, [Delete] has VTEX remove the very user that [Create] had it
    create, and reports "Error Deleting VTEX User Role" exactly when
    that removal fails. *)
Theorem Delete_removes_what_Create_created
    env0 req0 resp0 st0 resp' st1 m env req diags0 st :
  Create env0 req0 resp0 st0 = (Some resp', st1) ->
  HasError (Diags resp') = false ->
  State resp' = Some m ->
  Get_data req = m ->
  HasError (diags0 ++ Get_diags req) = false ->
  exists user,
    CreateUserRole env0 user st0 = (None, st1)
    /\ Delete env req diags0 st =
         (let (err, st') := DeleteUserRole env user st in
          (match err with
           | Some e =>
               AddError (diags0 ++ Get_diags req)
                 "Error Deleting VTEX User Role"
                 ("Could not delete user role, unexpected error: "
                  ++ RequestError_Error e)
           | None => (diags0 ++ Get_diags req)%list
           end, st')).
Proof.
  intros C E S G H. exists (userOf m). split.
  - destruct (Create_cases env0 req0 resp0 st0)
      as (r2 & s2 & C2 & _ & _ & K).
    rewrite C in C2. inversion C2; subst r2 s2.
    destruct (K E) as (_ & m' & S' & U & _). congruence.
  - rewrite <- G. exact (Delete_unfold env req diags0 st H).
Qed.

Lemma Delete_removes_what_Create_created_witness :
  exists user,
    CreateUserRole (examples.scripted 3600 [] [examples.status 200])
                   user (examples.client1, world0)
    = (None,
       (examples.client1,
        mkWorld 1 0 1 [EvRequest (examples.request0 "T0")]))
    /\ Delete (examples.scripted 3600 [] [examples.status 500;
                                          examples.status 204])
              (mkDataRequest []
                 (mkModel (StringValue "a@b.com:vendor:Owner")
                          (StringValue "a@b.com") (StringValue "a")
                          (StringValue "vendor") (StringValue "Owner")))
              []
              (examples.client1, world0)
       = (let (err, st') :=
            DeleteUserRole
              (examples.scripted 3600 [] [examples.status 500;
                                          examples.status 204])
              user (examples.client1, world0) in
          (match err with
           | Some e =>
               AddError [] "Error Deleting VTEX User Role"
                 ("Could not delete user role, unexpected error: "
                  ++ RequestError_Error e)
           | None => []
           end, st')).
Proof.
  exact (Delete_removes_what_Create_created
           (examples.scripted 3600 [] [examples.status 200])
           (mkCreateRequest []
              (mkModel StringUnknown (StringValue "a@b.com") StringUnknown
                       (StringValue "vendor") (StringValue "Owner")))
           (mkResponse [] None) (examples.client1, world0)
           (mkResponse []
              (Some (mkModel (StringValue "a@b.com:vendor:Owner")
                             (StringValue "a@b.com") (StringValue "a")
                             (StringValue "vendor") (StringValue "Owner"))))
           (examples.client1,
            mkWorld 1 0 1 [EvRequest (examples.request0 "T0")])
           (mkModel (StringValue "a@b.com:vendor:Owner")
                    (StringValue "a@b.com") (StringValue "a")
                    (StringValue "vendor") (StringValue "Owner"))
           (examples.scripted 3600 [] [examples.status 500;
                                       examples.status 204])
           (mkDataRequest []
              (mkModel (StringValue "a@b.com:vendor:Owner")
                       (StringValue "a@b.com") (StringValue "a")
                       (StringValue "vendor") (StringValue "Owner")))
           [] (examples.client1, world0)
           eq_refl eq_refl eq_refl eq_refl eq_refl).
Defined.

Lemma SplitN3_parts req_ID e a ro :
  SplitN req_ID ":" 3 = [e; a; ro] -> req_ID = formatID e a ro.
Proof.
  intros SP.
  pose proof (SplitN3_length req_ID ":") as L. rewrite SP in L.
  cbn [List.length] in L.
  destruct (SplitN3_two_seps req_ID ":" ltac:(lia))
    as (e' & a' & r' & Q & _ & _ & SP').
  rewrite SP in SP'. inversion SP'; subst e' a' r'. exact Q.
Qed.

(** X9: [Delete] after [ImportState].  An import that reports no error
    has set a state whose identifier is the one given and is made of the
    email, account and role set; given that state, [Delete] has VTEX
    remove the user with that email, account and role, under the name
    that precedes the first ['@'] of the email. *)
Theorem Delete_removes_what_was_imported req_ID resp0 r env req diags0 st :
  ImportState req_ID resp0 = Some r ->
  HasError (Diags r) = false ->
  State r = Some (Get_data req) ->
  HasError (diags0 ++ Get_diags req) = false ->
  exists email account roleName,
    req_ID = formatID email account roleName
    /\ ID (Get_data req) = StringValue req_ID
    /\ Delete env req diags0 st =
         (let (err, st') :=
            DeleteUserRole env
              (mkUserRole email (beforeFirst "@" email) account roleName)
              st in
          (match err with
           | Some e =>
               AddError (diags0 ++ Get_diags req)
                 "Error Deleting VTEX User Role"
                 ("Could not delete user role, unexpected error: "
                  ++ RequestError_Error e)
           | None => (diags0 ++ Get_diags req)%list
           end, st')).
Proof.
  intros I E S H.
  destruct (import_cases req_ID resp0) as [(e & a & ro & SP & I')|(C & I')];
    rewrite I in I'; inversion I'; subst r.
  - exists e, a, ro. split; [exact (SplitN3_parts _ _ _ _ SP)|].
    cbn [State imported] in S. inversion S as [S'].
    split; [reflexivity|].
    rewrite (Delete_unfold env req diags0 st H), <- S'. reflexivity.
  - cbn [Diags invalidImportID] in E.
    rewrite HasError_AddError in E. discriminate.
Qed.

Lemma Delete_removes_what_was_imported_witness :
  exists email account roleName,
    "a@b.com:vendor:Owner:x"%string = formatID email account roleName
    /\ ID (mkModel (StringValue "a@b.com:vendor:Owner:x")
                   (StringValue "a@b.com") (StringValue "a")
                   (StringValue "vendor") (StringValue "Owner:x"))
       = StringValue "a@b.com:vendor:Owner:x"
    /\ Delete (examples.scripted 3600 [] [examples.status 204])
              (mkDataRequest []
                 (mkModel (StringValue "a@b.com:vendor:Owner:x")
                          (StringValue "a@b.com") (StringValue "a")
                          (StringValue "vendor") (StringValue "Owner:x")))
              [] (examples.client1, world0)
       = (let (err, st') :=
            DeleteUserRole (examples.scripted 3600 [] [examples.status 204])
              (mkUserRole email (beforeFirst "@" email) account roleName)
              (examples.client1, world0) in
          (match err with
           | Some e =>
               AddError [] "Error Deleting VTEX User Role"
                 ("Could not delete user role, unexpected error: "
                  ++ RequestError_Error e)
           | None => []
           end, st')).
Proof.
  exact (Delete_removes_what_was_imported
           "a@b.com:vendor:Owner:x" (mkResponse [] None)
           (mkResponse []
              (Some (mkModel (StringValue "a@b.com:vendor:Owner:x")
                             (StringValue "a@b.com") (StringValue "a")
                             (StringValue "vendor")
                             (StringValue "Owner:x"))))
           (examples.scripted 3600 [] [examples.status 204])
           (mkDataRequest []
              (mkModel (StringValue "a@b.com:vendor:Owner:x")
                       (StringValue "a@b.com") (StringValue "a")
                       (StringValue "vendor") (StringValue "Owner:x")))
           [] (examples.client1, world0)
           eq_refl eq_refl eq_refl eq_refl).
Defined.


(** ** From the configuration to the first request *)

Lemma attempt_after_token env m e p rs st r st1 nx st' :
  getToken env st = (r, st1) ->
  attempt env m e p rs st = (nx, st') ->
  exists evs, trace (snd st') = trace (snd st1) ++ evs.
Proof.
  intros G A. destruct r as [tok|err].
  2:{ rewrite (attempt_token_error _ _ _ _ _ _ _ _ G) in A.
      inversion A; subst. exists []. now rewrite app_nil_r. }
  destruct (jsonMarshal env p) as [cause|jd] eqn:J.
  { unfold attempt, bind at 1 in A. rewrite G, J in A.
    inversion A; subst. exists []. now rewrite app_nil_r. }
  destruct (newRequest env m (vtexBaseURL (fst st1) ++ e)) as [cause|] eqn:N.
  { unfold attempt, bind at 1 in A. rewrite G, J in A. run_m_in A.
    rewrite N in A. inversion A; subst. exists []. now rewrite app_nil_r. }
  rewrite (attempt_sent _ _ _ _ _ _ _ _ _ G J N) in A. cbv zeta in A.
  destruct (vtexDo env (vtexCalls (snd st1))) as [cause|status body].
  { inversion A; subst. cbn. rewrite <- app_assoc. eauto. }
  destruct ((200 <=? status) && (status <? 300)).
  { inversion A; subst. cbn. eauto. }
  destruct ((status =? 401) || (status =? 403)).
  { destruct (refreshToken env _) as [r st3] eqn:RF.
    assert (st' = st3) by (destruct r; inversion A; reflexivity). subst st3.
    apply refreshToken_tokenOnly in RF.
    destruct RF as (_ & _ & evs & T & _). cbn in T.
    rewrite T, <- app_assoc. eauto. }
  destruct ((status =? 404) || (status =? 504) || (status =? 429)).
  { inversion A; subst. cbn. rewrite <- app_assoc. eauto. }
  destruct (status >=? 500).
  { inversion A; subst. cbn. rewrite <- app_assoc. eauto. }
  inversion A; subst. cbn. eauto.
Qed.

(** X10: the provider's [Configure] reports no error of its own: the
    client it builds from the six settings (read as the empty string
    when null or unknown) always exists, holds no token, and is what the
    resource's [Configure] then takes as its client.  Whatever is asked
    of such a client first, the first thing it does, if it does
    anything, is to ask the token endpoint for a token with the
    configured URL, client id, secret, grant type and scope. *)
Theorem configured_client_asks_for_a_token_first req resp :
  HasError (vtexProvider.Diagnostics_ resp ++ vtexProvider.Config_diags req)
  = false ->
  let config := vtexProvider.Config_data req in
  let c := NewVtexClient
             (ValueString (vtexProvider.VtexBaseURL config))
             (ValueString (vtexProvider.OktaURL config))
             (ValueString (vtexProvider.OktaClientID config))
             (ValueString (vtexProvider.OktaSecret config))
             (ValueString (vtexProvider.OktaGrantType config))
             (ValueString (vtexProvider.OktaScope config)) in
  vtexProvider.Configure req resp
  = vtexProvider.mkConfigureResponse
      (vtexProvider.Diagnostics_ resp ++ vtexProvider.Config_diags req)
      (ClientData c) (ClientData c)
  /\ (forall r_client diags,
        lifecycle.Configure
          (vtexProvider.ResourceData (vtexProvider.Configure req resp))
          r_client diags
        = (Some c, diags))
  /\ token c = ""%string
  /\ (forall env m e p w,
        trace (snd (snd (doRequestWithRetry env m e p (c, w)))) = trace w
        \/ exists evs,
             trace (snd (snd (doRequestWithRetry env m e p (c, w))))
             = trace w ++
               EvTokenRequest
                 (ValueString (vtexProvider.OktaURL config))
                 (ValueString (vtexProvider.OktaClientID config))
                 (ValueString (vtexProvider.OktaSecret config))
                 (formEncode env
                    (ValueString (vtexProvider.OktaGrantType config))
                    (ValueString (vtexProvider.OktaScope config)))
               :: evs).
Proof.
  intros H config c.
  assert (E : vtexProvider.Configure req resp
              = vtexProvider.mkConfigureResponse
                  (vtexProvider.Diagnostics_ resp
                   ++ vtexProvider.Config_diags req)
                  (ClientData c) (ClientData c)).
  { unfold vtexProvider.Configure. rewrite H. reflexivity. }
  split; [exact E|]. split; [intros; rewrite E; reflexivity|].
  split; [reflexivity|].
  intros env m e p w.
  destruct (doRequestWithRetry env m e p (c, w)) as [r stf] eqn:D.
  cbn [fst snd]. unfold doRequestWithRetry in D.
  change maxRetries with 20%nat in D. rewrite retryLoop_S in D.
  destruct (attempt env m e p (mkRetryState baseWait maxWait) (c, w))
    as [nx st'] eqn:A.
  destruct (getToken env (c, w)) as [r1 st1] eqn:G.
  destruct (attempt_after_token _ _ _ _ _ _ _ _ _ _ G A) as (evs1 & T1).
  assert (REST : exists evs2, trace (snd stf) = trace (snd st') ++ evs2).
  { destruct nx as [err|rs'].
    - inversion D; subst. exists []. now rewrite app_nil_r.
    - assert (R' : Reachable rs').
      { apply attempt_step in A. destruct A as (_ & _ & A).
        destruct (classify (vtexDo env (vtexCalls (snd (c, w)))));
          try contradiction; destruct A as [-> _];
          auto using Reach_init, Reach_backoff, Reach_widen. }
      destruct (retryLoop_events _ _ _ _ _ _ _ _ _ R' D)
        as (_ & evs2 & T2 & _).
      eauto. }
  destruct REST as (evs2 & T2).
  destruct (getToken_cases _ _ _ _ _ G)
    as [(_ & N & _)
       |[(err & -> & _ & [[_ T]|[_ T]])
        |(b & tr & now & _ & _ & _ & _ & _ & T)]].
  - exfalso. apply N. reflexivity.
  - left. rewrite (attempt_token_error _ _ _ _ _ _ _ _ G) in A.
    inversion A; subst. inversion D; subst. exact T.
  - right. exists (evs1 ++ evs2).
    rewrite T2, T1, T, <- !app_assoc. reflexivity.
  - right. exists (evs1 ++ evs2).
    rewrite T2, T1, T, <- !app_assoc. reflexivity.
Qed.

Lemma configured_client_asks_for_a_token_first_witness :
  trace (snd (snd (doRequestWithRetry
                     (examples.scripted 3600 [HttpResponse 200 "T1"]
                        [examples.status 200])
                     "POST" "/_v/create-user-role" examples.payload0
                     (examples.client0, world0))))
  = trace world0
  \/ exists evs,
       trace (snd (snd (doRequestWithRetry
                          (examples.scripted 3600 [HttpResponse 200 "T1"]
                             [examples.status 200])
                          "POST" "/_v/create-user-role" examples.payload0
                          (examples.client0, world0))))
       = trace world0 ++ examples.tokenRequest0 :: evs.
Proof.
  exact (proj2 (proj2 (proj2
    (configured_client_asks_for_a_token_first
       (vtexProvider.mkConfigureRequest []
          (vtexProvider.mkProviderModel
             (StringValue "https://vendor.myvtex.com")
             (StringValue "https://id.example/token")
             (StringValue "client-id")
             (StringValue "client-secret")
             (StringValue "client_credentials")
             (StringValue "vtex")))
       (vtexProvider.mkConfigureResponse [] NoProviderData NoProviderData)
       eq_refl)))
    (examples.scripted 3600 [HttpResponse 200 "T1"] [examples.status 200])
    "POST"%string "/_v/create-user-role"%string examples.payload0 world0).
Defined.
